(** * Verification model of the FacebookAPI Lambda: the Graph client,
    the reel upload state machine, the webhook normaliser and the
    Step Functions dispatcher.

    Python values that the code handles are JSON documents ([json]);
    a Python dict is an association list with unique keys (key order is
    kept, as in Python 3).  Python strings are modelled by [string], i.e.
    sequences of code points below 256.  A function of the service that
    can raise returns a [result]; a function that also talks to the
    network runs in the monad [M], which records the outbound requests
    (the trace) and reads their outcomes from a [world]. *)

From Stdlib Require Import String Ascii List Bool ZArith Lia.
Import ListNotations.
#[local] Set Warnings "-register-all".
Open Scope list_scope.
Open Scope string_scope.
Open Scope nat_scope.

(* ------------------------------------------------------------------ *)
(** ** Python values *)

Inductive json : Type :=
| JNull
| JBool (b : bool)
| JNum (z : Z)
| JStr (s : string)
| JArr (xs : list json)
| JObj (kvs : list (string * json)).

Definition dict := list (string * json).

Fixpoint dlookup (k : string) (d : dict) : option json :=
  match d with
  | [] => None
  | (k', v) :: r => if String.eqb k k' then Some v else dlookup k r
  end.

Definition din (k : string) (d : dict) : bool :=
  match dlookup k d with Some _ => true | None => false end.

(** [d[k] = v]: replace in place when the key exists, append otherwise. *)
Fixpoint dset (k : string) (v : json) (d : dict) : dict :=
  match d with
  | [] => [(k, v)]
  | (k', v') :: r => if String.eqb k k' then (k', v) :: r else (k', v') :: dset k v r
  end.

(** [d.update(e)] *)
Definition dupdate (d e : dict) : dict :=
  fold_left (fun acc kv => dset (fst kv) (snd kv) acc) e d.

(** Python truthiness. *)
Definition truthy (v : json) : bool :=
  match v with
  | JNull => false
  | JBool b => b
  | JNum z => negb (Z.eqb z 0)
  | JStr s => negb (String.eqb s "")
  | JArr xs => negb (Nat.eqb (length xs) 0)
  | JObj kvs => negb (Nat.eqb (length kvs) 0)
  end.

(** Python [==] on JSON values: [True == 1], dicts compare as maps. *)
Fixpoint py_eqb (a b : json) {struct a} : bool :=
  match a, b with
  | JNull, JNull => true
  | JBool x, JBool y => Bool.eqb x y
  | JBool x, JNum z => Z.eqb z (if x then 1 else 0)
  | JNum z, JBool x => Z.eqb z (if x then 1 else 0)
  | JNum x, JNum y => Z.eqb x y
  | JStr x, JStr y => String.eqb x y
  | JArr xs, JArr ys =>
      (fix go (xs ys : list json) : bool :=
         match xs, ys with
         | [], [] => true
         | x :: xr, y :: yr => py_eqb x y && go xr yr
         | _, _ => false
         end) xs ys
  | JObj xs, JObj ys =>
      Nat.eqb (length xs) (length ys) &&
      (fix go (xs : list (string * json)) : bool :=
         match xs with
         | [] => true
         | (k, v) :: r =>
             match dlookup k ys with
             | Some w => py_eqb v w && go r
             | None => false
             end
         end) xs
  | _, _ => false
  end.

(* ------------------------------------------------------------------ *)
(** ** Exceptions and fallible computations *)

Inductive exc : Type :=
| RequestException (msg : string)  (** requests.exceptions.RequestException *)
| JSONDecodeError                  (** requests.exceptions.JSONDecodeError *)
| AttributeError (msg : string)
| ValueError (msg : string)
| TypeError (msg : string)
| KeyError (msg : string).

(** [except requests.exceptions.RequestException]: since requests 2.27
    the error raised by [Response.json()] on a body that is not JSON is a
    subclass of [RequestException]. *)
Definition is_request_exception (e : exc) : bool :=
  match e with
  | RequestException _ | JSONDecodeError => true
  | _ => false
  end.

Definition exc_str (e : exc) : string :=
  match e with
  | RequestException m | AttributeError m | ValueError m | TypeError m | KeyError m => m
  | JSONDecodeError => "Expecting value: line 1 column 1 (char 0)"
  end.

Inductive result (A : Type) : Type :=
| Ok (a : A)
| Exc (e : exc).
Arguments Ok {A} a.
Arguments Exc {A} e.

Definition rbind {A B} (m : result A) (k : A -> result B) : result B :=
  match m with Ok a => k a | Exc e => Exc e end.

Notation "x <-? m ;; k" := (rbind m (fun x => k))
  (at level 61, m at next level, right associativity).

(* ------------------------------------------------------------------ *)
(** ** Strings *)

Fixpoint startswith (s p : string) : bool :=
  match p, s with
  | EmptyString, _ => true
  | String c p', String d s' => Ascii.eqb c d && startswith s' p'
  | String _ _, EmptyString => false
  end.

Fixpoint contains (s p : string) : bool :=
  startswith s p || match s with EmptyString => false | String _ r => contains r p end.

Fixpoint in_str (c : ascii) (s : string) : bool :=
  match s with
  | EmptyString => false
  | String d r => Ascii.eqb c d || in_str c r
  end.

Fixpoint drop (n : nat) (s : string) : string :=
  match n, s with
  | O, _ => s
  | S n', String _ r => drop n' r
  | S _, EmptyString => EmptyString
  end.

(** [s.split(c, 1)] when [c in s]. *)
Fixpoint split_once (c : ascii) (s : string) : option (string * string) :=
  match s with
  | EmptyString => None
  | String d r =>
      if Ascii.eqb c d then Some (EmptyString, r)
      else match split_once c r with
           | Some (a, b) => Some (String d a, b)
           | None => None
           end
  end.

(** Longest prefix of characters not satisfying [stop], and the rest. *)
Fixpoint span_until (stop : ascii -> bool) (s : string) : string * string :=
  match s with
  | EmptyString => (EmptyString, EmptyString)
  | String d r =>
      if stop d then (EmptyString, s)
      else let (a, b) := span_until stop r in (String d a, b)
  end.

Fixpoint lstrip (strip : ascii -> bool) (s : string) : string :=
  match s with
  | EmptyString => EmptyString
  | String d r => if strip d then lstrip strip r else s
  end.

Fixpoint remove_chars (rm : ascii -> bool) (s : string) : string :=
  match s with
  | EmptyString => EmptyString
  | String d r => if rm d then remove_chars rm r else String d (remove_chars rm r)
  end.

(** [str.lower] on code points below 256: ASCII and Latin-1 capitals. *)
Definition lower_char (c : ascii) : ascii :=
  let n := nat_of_ascii c in
  if ((65 <=? n) && (n <=? 90)) || ((192 <=? n) && (n <=? 222) && negb (n =? 215))
  then ascii_of_nat (n + 32) else c.

Fixpoint lower (s : string) : string :=
  match s with
  | EmptyString => EmptyString
  | String d r => String (lower_char d) (lower r)
  end.

Definition is_ascii_alpha (c : ascii) : bool :=
  let n := nat_of_ascii c in ((65 <=? n) && (n <=? 90)) || ((97 <=? n) && (n <=? 122)).

Definition is_ascii_digit (c : ascii) : bool :=
  let n := nat_of_ascii c in (48 <=? n) && (n <=? 57).

(** [urllib.parse.scheme_chars] *)
Definition is_scheme_char (c : ascii) : bool :=
  is_ascii_alpha c || is_ascii_digit c || in_str c "+-.".

Fixpoint all_chars (p : ascii -> bool) (s : string) : bool :=
  match s with
  | EmptyString => true
  | String d r => p d && all_chars p r
  end.

(** [_WHATWG_C0_CONTROL_OR_SPACE] and [_UNSAFE_URL_BYTES_TO_REMOVE] *)
Definition is_c0_or_space (c : ascii) : bool := nat_of_ascii c <=? 32.
Definition is_unsafe_url_byte (c : ascii) : bool :=
  let n := nat_of_ascii c in (n =? 9) || (n =? 13) || (n =? 10).

(** Python [str.lower] on a value of unknown type. *)
Definition py_lower (v : json) : result string :=
  match v with
  | JStr s => Ok (lower s)
  | JNull => Exc (AttributeError "'NoneType' object has no attribute 'lower'")
  | _ => Exc (AttributeError "object has no attribute 'lower'")
  end.

Definition py_startswith (v : json) (p : string) : result bool :=
  match v with
  | JStr s => Ok (startswith s p)
  | JNull => Exc (AttributeError "'NoneType' object has no attribute 'startswith'")
  | _ => Exc (AttributeError "object has no attribute 'startswith'")
  end.

(* ------------------------------------------------------------------ *)
(** ** urllib.parse *)

Record ParseResult := mkParse {
  pr_scheme : string; pr_netloc : string; pr_path : string;
  pr_params : string; pr_query : string; pr_fragment : string }.

(** [urllib.parse.uses_params] *)
Definition uses_params : list string :=
  [""; "ftp"; "hdl"; "prospero"; "http"; "imap"; "https"; "shttp"; "rtsp";
   "rtspu"; "sip"; "sips"; "mms"; "sftp"; "tel"].

Section UrlParse.

(** [_check_bracketed_netloc] validates a bracketed host with the
    [ipaddress] module; it is kept abstract (true when the check passes). *)
Variable bracketed_netloc_ok : string -> bool.

(** The scheme part of [urlsplit]: [(scheme, rest)]. *)
Definition split_scheme (url1 : string) : string * string :=
  match url1, split_once ":" url1 with
  | String c0 _, Some (pre, post) =>
      if is_ascii_alpha c0 && all_chars is_scheme_char pre
      then (lower pre, post) else ("", url1)
  | _, _ => ("", url1)
  end.

(** The netloc part of [urlsplit] ([_splitnetloc] and the bracket
    checks): [(netloc, rest)]. *)
Definition split_netloc (url2 : string) : result (string * string) :=
  if startswith url2 "//" then
    let '(netloc, rest) := span_until (fun c => in_str c "/?#") (drop 2 url2) in
    let ob := in_str "[" netloc in
    let cb := in_str "]" netloc in
    if (ob && negb cb) || (cb && negb ob) then Exc (ValueError "Invalid IPv6 URL")
    else if ob && cb && negb (bracketed_netloc_ok netloc)
    then Exc (ValueError "Invalid IPv6 URL")
    else Ok (netloc, rest)
  else Ok ("", url2).

(** [urlsplit(url)]: (scheme, netloc, path, query, fragment). *)
Definition urlsplit (url0 : string) : result (string * string * string * string * string) :=
  let url1 := remove_chars is_unsafe_url_byte (lstrip is_c0_or_space url0) in
  let '(scheme, url2) := split_scheme url1 in
  p <-? split_netloc url2 ;;
  let '(netloc, url3) := p in
  let '(url4, fragment) :=
    match split_once "#" url3 with Some (a, b) => (a, b) | None => (url3, "") end in
  let '(path, query) :=
    match split_once "?" url4 with Some (a, b) => (a, b) | None => (url4, "") end in
  Ok (scheme, netloc, path, query, fragment).

(** Position of the last ['/'], if any. *)
Fixpoint rfind_slash_suffix (s : string) : option string :=
  match s with
  | EmptyString => None
  | String d r =>
      match rfind_slash_suffix r with
      | Some t => Some t
      | None => if Ascii.eqb d "/" then Some s else None
      end
  end.

(** [_splitparams(url)] *)
Definition splitparams (url : string) : string * string :=
  match rfind_slash_suffix url with
  | Some tail =>
      (* [url.find(';', url.rfind('/'))] searches from the last slash. *)
      let head := substring 0 (String.length url - String.length tail) url in
      match split_once ";" tail with
      | Some (a, b) => (head ++ a, b)
      | None => (url, "")
      end
  | None =>
      match split_once ";" url with
      | Some (a, b) => (a, b)
      | None => (url, "")  (* unreachable: [';' in url] was checked *)
      end
  end.

(** [urlparse(url)] *)
Definition urlparse (url : string) : result ParseResult :=
  s <-? urlsplit url ;;
  let '(scheme, netloc, path, query, fragment) := s in
  let '(path', params) :=
    if existsb (String.eqb scheme) uses_params && in_str ";" path
    then splitparams path else (path, "") in
  Ok (mkParse scheme netloc path' params query fragment).

(** [FacebookService.extract_stream_details] *)
Definition extract_stream_details (stream_url : string) : result (string * string) :=
  parsed <-? urlparse stream_url ;;
  let path := pr_path parsed in
  let query := pr_query parsed in
  if negb (startswith path "/rtmp/")
  then Exc (ValueError "Invalid stream URL format: missing /rtmp/ path prefix")
  else
    let stream_id := drop (String.length "/rtmp/") path in
    let stream_key := if String.eqb query "" then stream_id else stream_id ++ "?" ++ query in
    let server_url := pr_scheme parsed ++ "://" ++ pr_netloc parsed ++ "/rtmp" in
    Ok (server_url, stream_key).

End UrlParse.

(** [str(v)] and [repr(v)] for the values interpolated into f-strings
    (string escapes inside containers are not modelled). *)
Fixpoint N_digits (fuel : nat) (n : N) (acc : string) : string :=
  match fuel with
  | O => acc
  | S f =>
      let acc' := String (ascii_of_N (48 + N.modulo n 10)) acc in
      if N.ltb n 10 then acc' else N_digits f (N.div n 10) acc'
  end.

Definition Z_str (z : Z) : string :=
  let n := Z.abs_N z in
  let ds := N_digits (S (N.to_nat (N.log2 n))) n "" in
  if Z.ltb z 0 then "-" ++ ds else ds.

Fixpoint py_repr (v : json) : string :=
  match v with
  | JNull => "None"
  | JBool true => "True"
  | JBool false => "False"
  | JNum z => Z_str z
  | JStr s => "'" ++ s ++ "'"
  | JArr xs =>
      "[" ++ (fix go (xs : list json) : string :=
                match xs with
                | [] => ""
                | [x] => py_repr x
                | x :: r => py_repr x ++ ", " ++ go r
                end) xs ++ "]"
  | JObj kvs =>
      "{" ++ (fix go (kvs : list (string * json)) : string :=
                match kvs with
                | [] => ""
                | [(k, x)] => "'" ++ k ++ "': " ++ py_repr x
                | (k, x) :: r => "'" ++ k ++ "': " ++ py_repr x ++ ", " ++ go r
                end) kvs ++ "}"
  end.

Definition py_str (v : json) : string :=
  match v with JStr s => s | _ => py_repr v end.

(** [v.get(k, default)] *)
Definition py_get (v : json) (k : string) (default : json) : result json :=
  match v with
  | JObj d => Ok (match dlookup k d with Some x => x | None => default end)
  | _ => Exc (AttributeError "object has no attribute 'get'")
  end.

(** [v[k]] with a string key *)
Definition py_index (v : json) (k : string) : result json :=
  match v with
  | JObj d => match dlookup k d with Some x => Ok x | None => Exc (KeyError k) end
  | _ => Exc (TypeError "indices must be integers")
  end.

(** [k in v] with a string [k] *)
Definition py_in (k : string) (v : json) : result bool :=
  match v with
  | JObj d => Ok (din k d)
  | JArr xs => Ok (existsb (py_eqb (JStr k)) xs)
  | JStr s => Ok (contains s k)
  | _ => Exc (TypeError "argument of type is not iterable")
  end.

(** Iteration [for x in v]. *)
Definition py_iter (v : json) : result (list json) :=
  match v with
  | JArr xs => Ok xs
  | JObj d => Ok (map (fun kv => JStr (fst kv)) d)
  | JStr s => Ok (map (fun c => JStr (String c EmptyString)) (list_ascii_of_string s))
  | _ => Exc (TypeError "object is not iterable")
  end.

(* ------------------------------------------------------------------ *)
(** ** The network, the token store and the clock *)

Inductive http_method := GET | POST.

Record request := mkRequest {
  rq_method : http_method;
  rq_url : string;
  rq_params : dict;   (** query string ([params=]) or form body ([data=]) *)
  rq_headers : dict }.

(** What [requests] gives back: a response whose body decodes as JSON
    ([Reply (Some j)]), one whose body is not JSON ([Reply None]), or a
    transport failure that [requests] raises. *)
Inductive outcome :=
| Reply (body : option json)
| Unreachable (msg : string).

Record world := mkWorld {
  w_http : request -> outcome;
  (** DynamoDB table [facebook_page_tokens]: the stored token, or [None]
      when there is no item or the read fails *)
  w_token_store : json -> option json;
  (** [datetime.now().isoformat()] *)
  w_now : string;
  (** [traceback.format_exc()] *)
  w_traceback : exc -> string }.

(** Computations against the world: the outbound requests, in order, and
    the value returned or the exception raised. *)
Definition M (A : Type) : Type := world -> list request * result A.

Definition ret {A} (a : A) : M A := fun _ => ([], Ok a).

Definition bind {A B} (m : M A) (k : A -> M B) : M B :=
  fun w =>
    let (t1, r) := m w in
    match r with
    | Ok a => let (t2, r2) := k a w in ((t1 ++ t2)%list, r2)
    | Exc e => (t1, Exc e)
    end.

Notation "x <- m ;; k" := (bind m (fun x => k))
  (at level 61, m at next level, right associativity).

Definition lift {A} (r : result A) : M A := fun _ => ([], r).
Definition raise {A} (e : exc) : M A := lift (Exc e).

(** [try: m except <handled e>: h e]: [h e = None] re-raises. *)
Definition try_except {A} (m : M A) (h : exc -> option (M A)) : M A :=
  fun w =>
    let (t1, r) := m w in
    match r with
    | Ok a => (t1, Ok a)
    | Exc e =>
        match h e with
        | Some k => let (t2, r2) := k w in ((t1 ++ t2)%list, r2)
        | None => (t1, Exc e)
        end
    end.

Definition now_iso : M json := fun w => ([], Ok (JStr (w_now w))).
Definition format_exc (e : exc) : M json := fun w => ([], Ok (JStr (w_traceback w e))).

(** [requests.get] / [requests.post]: one outbound call. *)
Definition http (rq : request) : M (option json) :=
  fun w =>
    ([rq], match w_http w rq with
           | Reply b => Ok b
           | Unreachable m => Exc (RequestException m)
           end).

Definition requests_get (url : string) (params : dict) : M (option json) :=
  http (mkRequest GET url params []).

Definition requests_post (url : string) (data : dict) (headers : dict) : M (option json) :=
  http (mkRequest POST url data headers).

(** [response.json()] *)
Definition response_json (b : option json) : M json :=
  match b with Some j => ret j | None => raise JSONDecodeError end.

(** [_get_stored_page_token]: every failure is caught and gives [None]. *)
Definition _get_stored_page_token (page_id : json) : M json :=
  fun w => ([], Ok (match w_token_store w page_id with Some t => t | None => JNull end)).

Definition graph (version path : string) : string :=
  "https://graph.facebook.com/" ++ version ++ "/" ++ path.

(** [except Exception as e]: every exception is handled. *)
Definition catch_all {A} (m : M A) (h : exc -> M A) : M A :=
  try_except m (fun e => Some (h e)).

Section Service.

Variable bracketed_netloc_ok : string -> bool.

(** [urlparse(v)] on a value already known to be a [str]. *)
Definition py_urlparse (v : json) : result ParseResult :=
  match v with
  | JStr s => urlparse bracketed_netloc_ok s
  | _ => Exc (AttributeError "object has no attribute 'decode'")
  end.

(** [FacebookService.post_to_facebook_page] *)
Definition post_to_facebook_page (page_id page_access_token message mediaType mm_url : json)
  : M json :=
  let '(url, params) :=
    if py_eqb mediaType (JStr "image") && truthy mm_url then
      (graph "v18.0" (py_str page_id ++ "/photos"),
       [("message", message); ("url", mm_url); ("access_token", page_access_token)])
    else if py_eqb mediaType (JStr "video") && truthy mm_url then
      (graph "v18.0" (py_str page_id ++ "/videos"),
       [("description", message); ("file_url", mm_url); ("access_token", page_access_token)])
    else
      (graph "v18.0" (py_str page_id ++ "/feed"),
       [("message", message); ("access_token", page_access_token)]) in
  response <- requests_post url params [] ;;
  response_json response.

Definition default_feed_fields : string :=
  "id,message,created_time,full_picture,permalink_url,shares,reactions.summary(total_count),comments.summary(total_count)".

(** [FacebookService.get_page_feed] *)
Definition get_page_feed (page_id page_access_token limit fields : json) : M json :=
  let fields := match fields with JNull => JStr default_feed_fields | f => f end in
  response <- requests_get (graph "v18.0" (py_str page_id ++ "/feed"))
                [("access_token", page_access_token); ("limit", limit); ("fields", fields)] ;;
  response_json response.

(** The record of the generic [except Exception] branch of the reel steps. *)
Definition exception_record (platform : json) (phase : string) (e : exc) : M json :=
  tb <- format_exc e ;;
  ts <- now_iso ;;
  ret (JObj [("status", JStr "error"); ("platform", platform);
             ("error_details", JStr (exc_str e)); ("traceback", tb);
             ("phase", JStr phase); ("timestamp", ts)]).

(** [FacebookService.init_reel_upload] *)
Definition init_reel_upload (page_id page_access_token description video_url platform : json)
  : M json :=
  catch_all
    (p <- lift (py_lower platform) ;;
     if String.eqb p "instagram" then
       let instagram_id := page_id in
       if negb (truthy instagram_id) then
         ts <- now_iso ;;
         ret (JObj [("status", JStr "error"); ("platform", platform);
                    ("error_details", JStr "instagram_id is required for Instagram platform");
                    ("phase", JStr "initialization"); ("timestamp", ts)])
       else
         resp <- requests_post (graph "v22.0" (py_str instagram_id ++ "/media"))
                   [("media_type", JStr "REELS"); ("video_url", video_url);
                    ("caption", description); ("access_token", page_access_token);
                    ("share_to_feed", JStr "true")] [] ;;
         create_resp <- response_json resp ;;
         has_id <- lift (py_in "id" create_resp) ;;
         if negb has_id then
           ts <- now_iso ;;
           ret (JObj [("status", JStr "error"); ("platform", platform);
                      ("instagram_id", instagram_id); ("error_details", create_resp);
                      ("phase", JStr "media_creation"); ("timestamp", ts)])
         else
           cid <- lift (py_index create_resp "id") ;;
           cid' <- lift (py_index create_resp "id") ;;
           ts <- now_iso ;;
           ret (JObj [("status", JStr "pending"); ("platform", platform);
                      ("instagram_id", instagram_id); ("creation_id", cid);
                      ("video_id", cid'); ("description", description);
                      ("phase", JStr "initialized"); ("timestamp", ts)])
     else
       start_response <- requests_post (graph "v22.0" (py_str page_id ++ "/video_reels"))
                           [("upload_phase", JStr "start"); ("access_token", page_access_token);
                            ("video_url", video_url)] [] ;;
       start_result <- response_json start_response ;;
       has_err <- lift (py_in "error" start_result) ;;
       if has_err then
         err <- lift (py_index start_result "error") ;;
         ts <- now_iso ;;
         ret (JObj [("status", JStr "error"); ("platform", platform); ("page_id", page_id);
                    ("error_details", err); ("phase", JStr "start"); ("timestamp", ts)])
       else
         video_id <- lift (py_get start_result "video_id" JNull) ;;
         if negb (truthy video_id) then
           ts <- now_iso ;;
           ret (JObj [("status", JStr "error"); ("platform", platform); ("page_id", page_id);
                      ("error_details", JStr "Missing video_id in start response");
                      ("phase", JStr "start"); ("timestamp", ts)])
         else
           ts <- now_iso ;;
           ret (JObj [("status", JStr "pending"); ("platform", platform); ("page_id", page_id);
                      ("video_id", video_id); ("description", description);
                      ("phase", JStr "initialized"); ("timestamp", ts)]))
    (exception_record platform "initialization").

(** [FacebookService.upload_hosted_file] *)
Definition upload_hosted_file (page_id page_access_token video_id file_url platform : json)
  : M json :=
  catch_all
    (p <- lift (py_lower platform) ;;
     if String.eqb p "instagram" then
       ts <- now_iso ;;
       ret (JObj [("status", JStr "success"); ("platform", platform);
                  ("phase", JStr "upload_skipped_for_instagram");
                  ("message", JStr "Instagram processes video directly from URL in init step");
                  ("timestamp", ts)])
     else
       https <- lift (py_startswith file_url "https://") ;;
       if negb https then
         ts <- now_iso ;;
         ret (JObj [("status", JStr "error"); ("platform", platform); ("page_id", page_id);
                    ("video_id", video_id);
                    ("error_details", JStr "File URL must use HTTPS protocol");
                    ("phase", JStr "upload_hosted_file"); ("timestamp", ts)])
       else
         parsed_url <- lift (py_urlparse file_url) ;;
         if contains (lower (pr_netloc parsed_url)) "fbcdn.net" then
           ts <- now_iso ;;
           ret (JObj [("status", JStr "error"); ("platform", platform); ("page_id", page_id);
                      ("video_id", video_id);
                      ("error_details", JStr "Files hosted on Meta CDN (fbcdn) are not supported. Use crossposting instead.");
                      ("phase", JStr "upload_hosted_file"); ("timestamp", ts)])
         else
           response <- requests_post
                         ("https://rupload.facebook.com/video-upload/v22.0/" ++ py_str video_id) []
                         [("Authorization", JStr ("OAuth " ++ py_str page_access_token));
                          ("file_url", file_url)] ;;
           result <- response_json response ;;
           success <- lift (py_get result "success" JNull) ;;
           match success with
           | JBool true =>
               ts <- now_iso ;;
               ret (JObj [("status", JStr "success"); ("platform", platform);
                          ("page_id", page_id); ("video_id", video_id);
                          ("phase", JStr "file_uploaded"); ("timestamp", ts)])
           | _ =>
               err <- lift (py_get result "error" (JStr "Unknown error")) ;;
               ts <- now_iso ;;
               ret (JObj [("status", JStr "error"); ("platform", platform);
                          ("page_id", page_id); ("video_id", video_id);
                          ("error_details", err); ("phase", JStr "upload_hosted_file");
                          ("timestamp", ts)])
           end)
    (exception_record platform "upload_hosted_file").

(** [FacebookService.check_reel_upload_status] *)
Definition check_reel_upload_status (page_id page_access_token video_id platform : json)
  : M json :=
  catch_all
    (p <- lift (py_lower platform) ;;
     if String.eqb p "instagram" then
       let instagram_id := page_id in
       let creation_id := video_id in
       if negb (truthy creation_id) then
         ts <- now_iso ;;
         ret (JObj [("status", JStr "error"); ("platform", platform);
                    ("instagram_id", instagram_id);
                    ("error_details", JStr "creation_id is required for Instagram status check");
                    ("phase", JStr "check_status"); ("timestamp", ts)])
       else
         status_response <- requests_get (graph "v22.0" (py_str creation_id))
                              [("fields", JStr "status_code"); ("access_token", page_access_token)] ;;
         status_result <- response_json status_response ;;
         has_err <- lift (py_in "error" status_result) ;;
         if has_err then
           err <- lift (py_index status_result "error") ;;
           ts <- now_iso ;;
           ret (JObj [("status", JStr "error"); ("platform", platform);
                      ("instagram_id", instagram_id); ("creation_id", creation_id);
                      ("error_details", err); ("phase", JStr "check_status"); ("timestamp", ts)])
         else
           has_code <- lift (py_in "status_code" status_result) ;;
           if has_code then
             status_code <- lift (py_index status_result "status_code") ;;
             if py_eqb status_code (JStr "FINISHED") then
               ts <- now_iso ;;
               ret (JObj [("status", JStr "ready"); ("platform", platform);
                          ("instagram_id", instagram_id); ("creation_id", creation_id);
                          ("phase", JStr "video_ready"); ("timestamp", ts)])
             else if py_eqb status_code (JStr "ERROR") then
               ts <- now_iso ;;
               ret (JObj [("status", JStr "error"); ("platform", platform);
                          ("instagram_id", instagram_id); ("creation_id", creation_id);
                          ("error_details", JStr "Video processing failed");
                          ("phase", JStr "processing"); ("timestamp", ts)])
             else
               ts <- now_iso ;;
               ret (JObj [("status", JStr "processing"); ("platform", platform);
                          ("instagram_id", instagram_id); ("creation_id", creation_id);
                          ("status_code", status_code); ("phase", JStr "awaiting_ready");
                          ("timestamp", ts)])
           else
             ts <- now_iso ;;
             ret (JObj [("status", JStr "unknown"); ("platform", platform);
                        ("instagram_id", instagram_id); ("creation_id", creation_id);
                        ("raw_response", status_result); ("phase", JStr "check_status");
                        ("timestamp", ts)])
     else
       status_response <- requests_get (graph "v22.0" (py_str video_id))
                            [("fields", JStr "status"); ("access_token", page_access_token)] ;;
       status_result <- response_json status_response ;;
       has_err <- lift (py_in "error" status_result) ;;
       if has_err then
         err <- lift (py_index status_result "error") ;;
         ts <- now_iso ;;
         ret (JObj [("status", JStr "error"); ("platform", platform); ("page_id", page_id);
                    ("video_id", video_id); ("error_details", err);
                    ("phase", JStr "check_status"); ("timestamp", ts)])
       else
         has_status <- lift (py_in "status" status_result) ;;
         if has_status then
           st <- lift (py_index status_result "status") ;;
           video_status <- lift (py_get st "video_status" JNull) ;;
           if py_eqb video_status (JStr "ready") then
             ts <- now_iso ;;
             ret (JObj [("status", JStr "ready"); ("platform", platform); ("page_id", page_id);
                        ("video_id", video_id); ("phase", JStr "video_ready");
                        ("timestamp", ts)])
           else if py_eqb video_status (JStr "error") then
             st' <- lift (py_index status_result "status") ;;
             fb_err <- lift (py_get st' "error" JNull) ;;
             ts <- now_iso ;;
             ret (JObj [("status", JStr "error"); ("platform", platform); ("page_id", page_id);
                        ("video_id", video_id); ("error_details", JStr "Video processing failed");
                        ("facebook_error", fb_err); ("phase", JStr "upload");
                        ("timestamp", ts)])
           else
             raw <- lift (py_index status_result "status") ;;
             ts <- now_iso ;;
             ret (JObj [("status", JStr "processing"); ("platform", platform);
                        ("page_id", page_id); ("video_id", video_id);
                        ("video_status", video_status); ("phase", JStr "awaiting_ready");
                        ("raw_status", raw); ("timestamp", ts)])
         else
           ts <- now_iso ;;
           ret (JObj [("status", JStr "unknown"); ("platform", platform); ("page_id", page_id);
                      ("video_id", video_id); ("raw_response", status_result);
                      ("phase", JStr "check_status"); ("timestamp", ts)]))
    (exception_record platform "check_status").

(** [FacebookService.publish_reel]; [kwargs] holds the extra keyword
    arguments (empty for every call made by the dispatcher). *)
Definition publish_reel (page_id page_access_token video_id description platform share_to_feed : json)
  (kwargs : dict) : M json :=
  catch_all
    (p <- lift (py_lower platform) ;;
     if String.eqb p "instagram" then
       let instagram_id := page_id in
       let creation_id := video_id in
       if negb (truthy instagram_id) || negb (truthy creation_id) then
         ts <- now_iso ;;
         ret (JObj [("status", JStr "error"); ("platform", platform);
                    ("error_details", JStr "instagram_id and creation_id are required for Instagram publishing");
                    ("phase", JStr "publish"); ("timestamp", ts)])
       else
         resp <- requests_post (graph "v22.0" (py_str instagram_id ++ "/media_publish"))
                   [("creation_id", creation_id); ("access_token", page_access_token)] [] ;;
         publish_resp <- response_json resp ;;
         has_id <- lift (py_in "id" publish_resp) ;;
         if has_id then
           mid <- lift (py_index publish_resp "id") ;;
           ts <- now_iso ;;
           ret (JObj [("status", JStr "success"); ("platform", platform);
                      ("instagram_id", instagram_id); ("media_id", mid);
                      ("creation_id", creation_id); ("phase", JStr "published");
                      ("timestamp", ts)])
         else
           ts <- now_iso ;;
           ret (JObj [("status", JStr "error"); ("platform", platform);
                      ("instagram_id", instagram_id); ("creation_id", creation_id);
                      ("error_details", publish_resp); ("phase", JStr "publish");
                      ("timestamp", ts)])
     else
       let opt k := match dlookup k kwargs with Some v => if truthy v then [(k, v)] else [] | None => [] end in
       let finish_params :=
         ([("upload_phase", JStr "finish"); ("video_id", video_id); ("description", description);
           ("share_to_feed", JStr (if truthy share_to_feed then "true" else "false"));
           ("access_token", page_access_token); ("video_state", JStr "PUBLISHED")]
          ++ opt "audio_name" ++ opt "thumbnail_url")%list in
       finish_response <- requests_post (graph "v22.0" (py_str page_id ++ "/video_reels"))
                            finish_params [] ;;
       finish_result <- response_json finish_response ;;
       has_success <- lift (py_in "success" finish_result) ;;
       success <- (if has_success then lift (py_index finish_result "success") else ret JNull) ;;
       match has_success, success with
       | true, JBool true =>
           post_id <- lift (py_get finish_result "post_id" JNull) ;;
           msg <- lift (py_get finish_result "message" JNull) ;;
           ts <- now_iso ;;
           ret (JObj [("status", JStr "success"); ("platform", platform); ("page_id", page_id);
                      ("reel_id", post_id); ("video_id", video_id); ("message", msg);
                      ("share_to_feed", share_to_feed); ("phase", JStr "published");
                      ("timestamp", ts)])
       | _, _ =>
           has_id <- lift (py_in "id" finish_result) ;;
           if has_id then
             rid <- lift (py_index finish_result "id") ;;
             permalink <- lift (py_get finish_result "permalink_url" JNull) ;;
             ts <- now_iso ;;
             ret (JObj [("status", JStr "success"); ("platform", platform); ("page_id", page_id);
                        ("reel_id", rid); ("video_id", video_id); ("permalink_url", permalink);
                        ("share_to_feed", share_to_feed); ("phase", JStr "published");
                        ("timestamp", ts)])
           else
             error_details <- lift (py_get finish_result "error" (JObj [])) ;;
             ts <- now_iso ;;
             ret (JObj [("status", JStr "error"); ("platform", platform); ("page_id", page_id);
                        ("video_id", video_id); ("error_details", error_details);
                        ("phase", JStr "publish"); ("timestamp", ts)])
       end)
    (exception_record platform "publish").

(* ------------------------------------------------------------------ *)
(** *** Webhook normaliser *)

(** The Graph API requests issued while normalising a comment. *)
Definition page_data_request (page_id page_access_token : json) : request :=
  mkRequest GET (graph "v18.0" (py_str page_id))
    [("fields", JStr "id,name,category,about.limit(10000),bio,description");
     ("access_token", page_access_token)] [].

Definition thread_base_url : string := "https://graph.facebook.com/v18.0".

Definition post_content_request (post_id page_access_token : json) : request :=
  mkRequest GET (thread_base_url ++ "/" ++ py_str post_id)
    [("fields", JStr "message,created_time"); ("access_token", page_access_token)] [].

Definition parent_comment_request (parent_id page_access_token : json) : request :=
  mkRequest GET (thread_base_url ++ "/" ++ py_str parent_id)
    [("fields", JStr "message,created_time,from,comments{message,created_time,from}");
     ("access_token", page_access_token)] [].

Definition sibling_comments_request (post_id page_access_token : json) : request :=
  mkRequest GET (thread_base_url ++ "/" ++ py_str post_id ++ "/comments")
    [("fields", JStr "message,created_time,from,comments.limit(5){message,created_time,from}");
     ("access_token", page_access_token); ("limit", JNum 5)] [].

(** [FacebookService.get_page_data] *)
Definition get_page_data (page_id page_access_token : json) : M json :=
  response <- http (page_data_request page_id page_access_token) ;;
  response_json response.

(** [except requests.exceptions.RequestException]: [None] when caught. *)
Definition catch_request {A} (m : M A) : M (option A) :=
  try_except (a <- m ;; ret (Some a))
    (fun e => if is_request_exception e then Some (ret None) else None).

Definition thread_context_json (post_content comment_thread : json) (hierarchy : string) : json :=
  JObj [("post_content", post_content); ("comment_thread", comment_thread);
        ("hierarchy", JStr hierarchy)].

(** [FacebookService._get_comment_thread_context].  The source mutates one
    dict inside a single [try]; its two writes ([post_content], then
    [comment_thread]) happen after the first and after the second fetch
    respectively, so the dict returned from the handler is the one holding
    the writes made before the failing fetch.  The model reads the two
    stages as two guarded blocks. *)
Definition _get_comment_thread_context (post_id comment_id parent_id : json) (is_top_level : bool)
  (page_access_token : json) : M json :=
  let hierarchy := if is_top_level then "top_level" else "reply" in
  r1 <- catch_request
          (post_response <- http (post_content_request post_id page_access_token) ;;
           post_data <- response_json post_response ;;
           lift (py_get post_data "message" (JStr ""))) ;;
  match r1 with
  | None => ret (thread_context_json JNull (JArr []) hierarchy)
  | Some post_content =>
      r2 <- catch_request
              (if negb is_top_level then
                 comment_response <- http (parent_comment_request parent_id page_access_token) ;;
                 thread_data <- response_json comment_response ;;
                 m <- lift (py_get thread_data "message" JNull) ;;
                 ct <- lift (py_get thread_data "created_time" JNull) ;;
                 fr <- lift (py_get thread_data "from" JNull) ;;
                 cm <- lift (py_get thread_data "comments" (JObj [])) ;;
                 replies <- lift (py_get cm "data" (JArr [])) ;;
                 ret (JArr [JObj [("id", parent_id); ("message", m); ("created_time", ct);
                                  ("from", fr); ("replies", replies)]])
               else
                 comments_response <- http (sibling_comments_request post_id page_access_token) ;;
                 j <- response_json comments_response ;;
                 lift (py_get j "data" (JArr []))) ;;
      ret (thread_context_json post_content
             (match r2 with Some t => t | None => JArr [] end) hierarchy)
  end.

(** [value.get('post', {}).get(k)] *)
Definition post_field (value : json) (k : string) : M json :=
  p <- lift (py_get value "post" (JObj [])) ;;
  lift (py_get p k JNull).

(** [FacebookService._process_feed_event]; [JNull] is Python's [None]. *)
Definition _process_feed_event (value page_id : json) : M json :=
  item <- lift (py_get value "item" JNull) ;;
  verb <- lift (py_get value "verb" JNull) ;;
  let event_info := [("item", item); ("verb", verb)] in
  if py_eqb item (JStr "comment") && py_eqb verb (JStr "add") then
    from <- lift (py_get value "from" (JObj [])) ;;
    commenter_id <- lift (py_get from "id" JNull) ;;
    (* is_own_comment(commenter_id, page_id) *)
    if py_eqb commenter_id page_id then ret JNull
    else
      page_access_token <- _get_stored_page_token page_id ;;
      comment_id <- lift (py_get value "comment_id" JNull) ;;
      post_id <- lift (py_get value "post_id" JNull) ;;
      parent_id <- lift (py_get value "parent_id" JNull) ;;
      message <- lift (py_get value "message" JNull) ;;
      created_time <- lift (py_get value "created_time" JNull) ;;
      from' <- lift (py_get value "from" (JObj [])) ;;
      name <- lift (py_get from' "name" JNull) ;;
      let comment_data :=
        JObj [("comment_id", comment_id); ("post_id", post_id); ("parent_id", parent_id);
              ("message", message); ("created_time", created_time);
              ("from", JObj [("id", commenter_id); ("name", name)])] in
      let is_top_level := py_eqb parent_id post_id in
      thread_context <- _get_comment_thread_context post_id comment_id parent_id is_top_level
                          page_access_token ;;
      owner_info <- get_page_data page_id page_access_token ;;
      pid <- post_field value "id" ;;
      status_type <- post_field value "status_type" ;;
      is_published <- post_field value "is_published" ;;
      updated_time <- post_field value "updated_time" ;;
      permalink_url <- post_field value "permalink_url" ;;
      ret (JObj (dupdate event_info
             [("page_access_token", page_access_token); ("comment_data", comment_data);
              ("thread_context", thread_context);
              ("comment_level", JStr (if is_top_level then "top_level" else "reply"));
              ("owner_info", owner_info);
              ("post_data", JObj [("id", pid); ("status_type", status_type);
                                  ("is_published", is_published); ("updated_time", updated_time);
                                  ("permalink_url", permalink_url)])]))
  else ret JNull.

(** The changes loop of [process_webhook_event]. *)
Fixpoint process_changes (page_id : json) (changes : list json) (acc : list json)
  : M (list json) :=
  match changes with
  | [] => ret acc
  | change :: rest =>
      _field <- lift (py_get change "field" JNull) ;;
      value <- lift (py_get change "value" (JObj [])) ;;
      event_info <- _process_feed_event value page_id ;;
      process_changes page_id rest (if truthy event_info then (acc ++ [event_info])%list else acc)
  end.

(** The entries loop of [process_webhook_event]. *)
Fixpoint process_entries (entries : list json) (acc : list json) : M (list json) :=
  match entries with
  | [] => ret acc
  | entry :: rest =>
      page_id <- lift (py_get entry "id" JNull) ;;
      chs <- lift (py_get entry "changes" (JArr [])) ;;
      changes <- lift (py_iter chs) ;;
      acc' <- process_changes page_id changes acc ;;
      process_entries rest acc'
  end.

(** [FacebookService.process_webhook_event] *)
Definition process_webhook_event (payload : json) : M (list json) :=
  has_object <- lift (py_in "object" payload) ;;
  is_page <- (if has_object
              then o <- lift (py_index payload "object") ;; ret (py_eqb o (JStr "page"))
              else ret false) ;;
  if negb is_page then raise (ValueError "Received webhook is not for a page")
  else
    es <- lift (py_get payload "entry" (JArr [])) ;;
    entries <- lift (py_iter es) ;;
    process_entries entries [].

(* ------------------------------------------------------------------ *)
(** *** Step Functions dispatcher ([app.py]) *)

(** The attributes of a [FacebookService] instance: the methods of the
    class and the fields set by [__init__] and [_load_secrets]. *)
Definition FacebookService_attributes : list string :=
  ["secrets_client"; "events_client"; "app_id"; "app_secret"; "webhook_verify_token";
   "__init__"; "_load_secrets"; "extract_stream_details"; "create_live_stream";
   "verify_webhook"; "process_webhook_event"; "publish_to_eventbridge";
   "get_user_access_token"; "extend_user_access_token"; "extend_page_access_token";
   "get_facebook_pages"; "get_page_data"; "post_to_facebook_page"; "init_reel_upload";
   "upload_hosted_file"; "check_reel_upload_status"; "publish_reel"; "post_reel";
   "get_page_feed"; "reply_to_comment"; "is_own_comment"; "send_message";
   "send_message_with_attachment"; "send_quick_reply_message"; "send_template_message";
   "mark_message_as_seen"; "set_typing_indicator"; "get_user_profile";
   "process_messaging_webhook"; "_process_feed_event"; "_get_comment_thread_context";
   "extract_page_info"; "_store_page_token"; "_get_stored_page_token";
   "get_page_subscriptions"; "subscribe_app_to_page"; "unsubscribe_app_from_page_fields";
   "get_instagram_profile_details"; "post_to_instagram"].

(** Methods of the class whose bodies this development does not model. *)
Variable unmodelled_method : string -> list json -> M json.

(** [fb_service.<name>(args...)]: attribute lookup first, then the call. *)
Definition fb_service_call (name : string) (args : list json) : M json :=
  if negb (existsb (String.eqb name) FacebookService_attributes) then
    raise (AttributeError ("'FacebookService' object has no attribute '" ++ name ++ "'"))
  else if String.eqb name "init_reel_upload" then
    match args with
    | [a; b; c; d; e] => init_reel_upload a b c d e
    | _ => raise (TypeError "init_reel_upload: wrong number of arguments")
    end
  else if String.eqb name "upload_hosted_file" then
    match args with
    | [a; b; c; d; e] => upload_hosted_file a b c d e
    | _ => raise (TypeError "upload_hosted_file: wrong number of arguments")
    end
  else if String.eqb name "check_reel_upload_status" then
    match args with
    | [a; b; c; d] => check_reel_upload_status a b c d
    | _ => raise (TypeError "check_reel_upload_status: wrong number of arguments")
    end
  else if String.eqb name "publish_reel" then
    match args with
    (* audio_name and thumbnail_url land in the named parameters, so
       [kwargs] is empty *)
    | [a; b; c; d; e; f; _; _] => publish_reel a b c d e f []
    | _ => raise (TypeError "publish_reel: wrong number of arguments")
    end
  else unmodelled_method name args.

Definition ev_get (event : dict) (k : string) (default : json) : json :=
  match dlookup k event with Some v => v | None => default end.

(** [a or b] *)
Definition py_or (a b : json) : json := if truthy a then a else b.

(** [x + 1] *)
Definition py_succ (x : json) : result json :=
  match x with
  | JNum z => Ok (JNum (z + 1)%Z)
  | JBool b => Ok (JNum (if b then 2 else 1)%Z)
  | _ => Exc (TypeError "unsupported operand type(s) for +")
  end.

(** [result[k] = v] *)
Definition py_setitem (v : json) (k : string) (x : json) : result json :=
  match v with
  | JObj d => Ok (JObj (dset k x d))
  | _ => Exc (TypeError "object does not support item assignment")
  end.

Definition missing (msg : string) : M json := ret (JObj [("error", JStr msg)]).

(** Actions of [handle_step_function_request] that are not modelled here
    (including the final [raise ValueError] for unknown actions). *)
Variable other_action : json -> dict -> M json.

(** [handle_step_function_request] *)
Definition handle_step_function_request (event : dict) : M json :=
  let action := ev_get event "action" JNull in
  if py_eqb action (JStr "create_instagram_media") then
    let instagram_id := py_or (ev_get event "instagram_id" JNull) (ev_get event "page_id" JNull) in
    let page_access_token := ev_get event "page_access_token" JNull in
    let caption := py_or (ev_get event "caption" JNull) (ev_get event "message" JNull) in
    let mediaType := ev_get event "mediaType" JNull in
    let mm_url := ev_get event "mm_url" JNull in
    if negb (truthy instagram_id) || negb (truthy page_access_token) || negb (truthy caption) then
      missing "Missing required parameters: instagram_id, page_access_token, caption"
    else
      result <- fb_service_call "create_instagram_media"
                  [instagram_id; page_access_token; caption; mediaType; mm_url] ;;
      status <- lift (py_get result "status" JNull) ;;
      if py_eqb status (JStr "created") then
        r1 <- lift (py_setitem result "instagram_id" instagram_id) ;;
        lift (py_setitem r1 "page_access_token" page_access_token)
      else ret result
  else if py_eqb action (JStr "check_instagram_media_status") then
    let creation_id := ev_get event "creation_id" JNull in
    let page_access_token := ev_get event "page_access_token" JNull in
    if negb (truthy creation_id) || negb (truthy page_access_token) then
      missing "Missing required parameters: creation_id, page_access_token"
    else
      result <- fb_service_call "check_instagram_media_status" [creation_id; page_access_token] ;;
      r1 <- lift (py_setitem result "creation_id" creation_id) ;;
      r2 <- lift (py_setitem r1 "instagram_id" (ev_get event "instagram_id" JNull)) ;;
      r3 <- lift (py_setitem r2 "page_access_token" page_access_token) ;;
      r4 <- lift (py_setitem r3 "media_type" (ev_get event "media_type" JNull)) ;;
      attempt <- lift (py_succ (ev_get event "attempt" (JNum 0))) ;;
      lift (py_setitem r4 "attempt" attempt)
  else if py_eqb action (JStr "publish_instagram_media") then
    let instagram_id := ev_get event "instagram_id" JNull in
    let creation_id := ev_get event "creation_id" JNull in
    let page_access_token := ev_get event "page_access_token" JNull in
    if negb (truthy instagram_id) || negb (truthy creation_id) || negb (truthy page_access_token) then
      missing "Missing required parameters: instagram_id, creation_id, page_access_token"
    else
      result <- fb_service_call "publish_instagram_media"
                  [instagram_id; creation_id; page_access_token] ;;
      status <- lift (py_get result "status" JNull) ;;
      if py_eqb status (JStr "not_ready") then
        r1 <- lift (py_setitem result "creation_id" creation_id) ;;
        r2 <- lift (py_setitem r1 "instagram_id" instagram_id) ;;
        r3 <- lift (py_setitem r2 "page_access_token" page_access_token) ;;
        r4 <- lift (py_setitem r3 "media_type" (ev_get event "media_type" JNull)) ;;
        attempt <- lift (py_succ (ev_get event "publish_attempt" (JNum 0))) ;;
        lift (py_setitem r4 "publish_attempt" attempt)
      else ret result
  else if py_eqb action (JStr "init_reel_upload") then
    let page_id := ev_get event "page_id" JNull in
    let page_access_token := ev_get event "page_access_token" JNull in
    let description := ev_get event "message" JNull in
    let video_url := ev_get event "mm_url" JNull in
    let platform := ev_get event "platform" JNull in
    if negb (truthy page_id) || negb (truthy page_access_token) || negb (truthy description)
       || negb (truthy video_url) then
      missing "Missing required parameters: page_id, page_access_token, description, or video_url"
    else fb_service_call "init_reel_upload" [page_id; page_access_token; description; video_url; platform]
  else if py_eqb action (JStr "upload_hosted_file") then
    let page_id := ev_get event "page_id" JNull in
    let page_access_token := ev_get event "page_access_token" JNull in
    let video_id := ev_get event "video_id" JNull in
    let file_url := ev_get event "mm_url" JNull in
    let platform := ev_get event "platform" JNull in
    if negb (truthy page_id) || negb (truthy page_access_token) || negb (truthy video_id)
       || negb (truthy file_url) then
      missing "Missing required parameters: page_id, page_access_token, video_id, or file_url"
    else fb_service_call "upload_hosted_file" [page_id; page_access_token; video_id; file_url; platform]
  else if py_eqb action (JStr "check_reel_upload_status") then
    let page_id := ev_get event "page_id" JNull in
    let page_access_token := ev_get event "page_access_token" JNull in
    let video_id := ev_get event "video_id" JNull in
    let platform := ev_get event "platform" JNull in
    if negb (truthy page_id) || negb (truthy page_access_token) || negb (truthy video_id) then
      missing "Missing required parameters: page_id, page_access_token, or video_id"
    else fb_service_call "check_reel_upload_status" [page_id; page_access_token; video_id; platform]
  else if py_eqb action (JStr "publish_reel") then
    let page_id := ev_get event "page_id" JNull in
    let page_access_token := ev_get event "page_access_token" JNull in
    let video_id := ev_get event "video_id" JNull in
    let description := ev_get event "message" JNull in
    let share_to_feed := ev_get event "share_to_feed" (JBool true) in
    let audio_name := ev_get event "audio_name" JNull in
    let thumbnail_url := ev_get event "thumbnail_url" JNull in
    let platform := ev_get event "platform" JNull in
    if negb (truthy page_id) || negb (truthy page_access_token) || negb (truthy video_id)
       || negb (truthy description) then
      missing "Missing required parameters: page_id, page_access_token, video_id, or description"
    else fb_service_call "publish_reel"
           [page_id; page_access_token; video_id; description; platform; share_to_feed;
            audio_name; thumbnail_url]
  else other_action action event.

(** What [lambda_handler] returns: the dispatcher's value, or the value of
    [response_helper.create_error_response(str(e))] (a helper of a layer
    that is not part of the sources), kept symbolic. *)
Inductive handler_response :=
| Returned (j : json)
| CreateErrorResponse (msg : string).

(** The API Gateway branch, not modelled here. *)
Variable handle_api_gateway_request : dict -> M handler_response.

(** [lambda_handler], for an already constructed [FacebookService]. *)
Definition lambda_handler (event : dict) : M handler_response :=
  catch_all
    (if din "httpMethod" event then handle_api_gateway_request event
     else r <- handle_step_function_request event ;; ret (Returned r))
    (fun e => ret (CreateErrorResponse (exc_str e))).

End Service.

(* ------------------------------------------------------------------ *)
(** ** The rest of [FacebookService] and of the Step Functions dispatcher *)

(** A loop that appends [f x] for every [x], stopping at the first exception. *)
Fixpoint map_result {A B} (f : A -> result B) (xs : list A) : result (list B) :=
  match xs with
  | [] => Ok []
  | x :: r => y <-? f x ;; ys <-? map_result f r ;; Ok (y :: ys)
  end.

(** [[x for x in xs if f(x)]] *)
Fixpoint filter_result {A} (f : A -> result bool) (xs : list A) : result (list A) :=
  match xs with
  | [] => Ok []
  | x :: r => b <-? f x ;; ys <-? filter_result f r ;; Ok (if b then x :: ys else ys)
  end.

(** [x in container] for any [x]. *)
Definition py_contains (x container : json) : result bool :=
  match container with
  | JArr ys => Ok (existsb (py_eqb x) ys)
  | JObj d =>
      match x with
      | JStr k => Ok (din k d)
      | JArr _ => Exc (TypeError "unhashable type: 'list'")
      | JObj _ => Exc (TypeError "unhashable type: 'dict'")
      | _ => Ok false
      end
  | JStr s =>
      match x with
      | JStr k => Ok (contains s k)
      | _ => Exc (TypeError "'in <string>' requires string as left operand")
      end
  | _ => Exc (TypeError "argument of type is not iterable")
  end.

(** [sep.join(xs)] *)
Fixpoint py_join (sep : string) (xs : list json) : result string :=
  match xs with
  | [] => Ok ""
  | [JStr s] => Ok s
  | JStr s :: r => t <-? py_join sep r ;; Ok (s ++ sep ++ t)
  | _ :: _ => Exc (TypeError "sequence item: expected str instance")
  end.

(** [v[0]]; only used behind [if v:], so the [IndexError] of an empty
    list is never reached. *)
Definition py_item0 (v : json) : result json :=
  match v with
  | JArr (x :: _) => Ok x
  | JArr [] => Exc (TypeError "list index out of range")
  | JStr (String c _) => Ok (JStr (String c EmptyString))
  | JStr EmptyString => Exc (TypeError "string index out of range")
  | JObj _ => Exc (KeyError "0")
  | _ => Exc (TypeError "object is not subscriptable")
  end.

(** [len(v)] *)
Definition py_len (v : json) : result nat :=
  match v with
  | JArr xs => Ok (length xs)
  | JObj d => Ok (length d)
  | JStr s => Ok (String.length s)
  | _ => Exc (TypeError "object has no len()")
  end.

(** A key of a dict must be hashable. *)
Definition py_hashable (k : json) : result unit :=
  match k with
  | JArr _ => Exc (TypeError "unhashable type: 'list'")
  | JObj _ => Exc (TypeError "unhashable type: 'dict'")
  | _ => Ok tt
  end.

(** A dict with arbitrary (hashable) keys, in insertion order. *)
Definition pydict := list (json * json).

(** [d[k] = v] *)
Fixpoint pydict_set (k v : json) (d : pydict) : pydict :=
  match d with
  | [] => [(k, v)]
  | (k', v') :: r => if py_eqb k k' then (k', v) :: r else (k', v') :: pydict_set k v r
  end.

Fixpoint pydict_lookup (k : json) (d : pydict) : option json :=
  match d with
  | [] => None
  | (k', v) :: r => if py_eqb k k' then Some v else pydict_lookup k r
  end.

(** [token[:15] + "..." + token[-5:]]: the slicing of the masked token.
    Strings are byte strings here, as everywhere in this development. *)
Definition mask_token (t : json) : result json :=
  match t with
  | JStr s => Ok (JStr (substring 0 15 s ++ "..." ++ substring (String.length s - 5) 5 s))
  | JArr _ => Exc (TypeError "can only concatenate list (not 'str') to list")
  | JObj _ => Exc (KeyError "slice(None, 15, None)")
  | JNull => Exc (TypeError "'NoneType' object is not subscriptable")
  | JBool _ => Exc (TypeError "'bool' object is not subscriptable")
  | JNum _ => Exc (TypeError "'int' object is not subscriptable")
  end.

(** [requests.post(url, json=payload, params=params)]: the query string
    is [params]; the JSON body travels under the key ["json"]. *)
Definition requests_post_json (url : string) (payload : json) (params : dict) : M (option json) :=
  http (mkRequest POST url (params ++ [("json", payload)])%list []).

(** *** Messenger webhook ([process_messaging_webhook]) *)

(** The body of the inner loop: the [event_info] of one messaging event. *)
Definition messaging_event_info (page_id messaging_event : json) : result json :=
  ts <-? py_get messaging_event "timestamp" JNull ;;
  sender <-? py_get messaging_event "sender" (JObj []) ;;
  sender_id <-? py_get sender "id" JNull ;;
  recipient <-? py_get messaging_event "recipient" (JObj []) ;;
  recipient_id <-? py_get recipient "id" JNull ;;
  let event_info := [("page_id", page_id); ("timestamp", ts); ("sender_id", sender_id);
                     ("recipient_id", recipient_id)] in
  has_message <-? py_in "message" messaging_event ;;
  if has_message then
    message <-? py_index messaging_event "message" ;;
    mid <-? py_get message "mid" JNull ;;
    text <-? py_get message "text" JNull ;;
    attachments <-? py_get message "attachments" (JArr []) ;;
    quick_reply <-? py_get message "quick_reply" JNull ;;
    Ok (JObj (dupdate event_info
               [("event_type", JStr "message"); ("message_id", mid); ("message_text", text);
                ("attachments", attachments); ("quick_reply", quick_reply)]))
  else
  has_postback <-? py_in "postback" messaging_event ;;
  if has_postback then
    postback <-? py_index messaging_event "postback" ;;
    payload <-? py_get postback "payload" JNull ;;
    title <-? py_get postback "title" JNull ;;
    Ok (JObj (dupdate event_info
               [("event_type", JStr "postback"); ("postback_payload", payload);
                ("postback_title", title)]))
  else
  has_delivery <-? py_in "delivery" messaging_event ;;
  if has_delivery then
    delivery <-? py_index messaging_event "delivery" ;;
    mids <-? py_get delivery "mids" (JArr []) ;;
    watermark <-? py_get delivery "watermark" JNull ;;
    Ok (JObj (dupdate event_info
               [("event_type", JStr "delivery"); ("delivered_messages", mids);
                ("watermark", watermark)]))
  else
  has_read <-? py_in "read" messaging_event ;;
  if has_read then
    read <-? py_index messaging_event "read" ;;
    watermark <-? py_get read "watermark" JNull ;;
    Ok (JObj (dupdate event_info [("event_type", JStr "read"); ("watermark", watermark)]))
  else Ok (JObj event_info).

Fixpoint process_messaging_events (page_id : json) (events : list json) (acc : list json)
  : result (list json) :=
  match events with
  | [] => Ok acc
  | ev :: rest =>
      info <-? messaging_event_info page_id ev ;;
      process_messaging_events page_id rest (acc ++ [info])
  end.

Fixpoint process_messaging_entries (entries : list json) (acc : list json) : result (list json) :=
  match entries with
  | [] => Ok acc
  | entry :: rest =>
      page_id <-? py_get entry "id" JNull ;;
      ms <-? py_get entry "messaging" (JArr []) ;;
      events <-? py_iter ms ;;
      acc' <-? process_messaging_events page_id events acc ;;
      process_messaging_entries rest acc'
  end.

(** [FacebookService.process_messaging_webhook] *)
Definition process_messaging_webhook (payload : json) : result (list json) :=
  has_object <-? py_in "object" payload ;;
  is_page <-? (if has_object
               then o <-? py_index payload "object" ;; Ok (py_eqb o (JStr "page"))
               else Ok false) ;;
  if negb is_page then Exc (ValueError "Received webhook is not for a page")
  else
    es <-? py_get payload "entry" (JArr []) ;;
    entries <-? py_iter es ;;
    process_messaging_entries entries [].

(** *** Comments and Messenger *)

(** [FacebookService.reply_to_comment] *)
Definition reply_to_comment (original_comment_id page_access_token reply_text commenter_id : json)
  : M json :=
  let url := graph "v18.0" (py_str original_comment_id ++ "/comments") in
  let message :=
    if truthy commenter_id
    then JStr ("@[" ++ py_str commenter_id ++ "] " ++ py_str reply_text)
    else reply_text in
  let params := [("message", message); ("access_token", page_access_token)] in
  let mentioned_user := if truthy commenter_id then commenter_id else JNull in
  catch_all
    (response <- requests_post url params [] ;;
     response_data <- response_json response ;;
     has_id <- lift (py_in "id" response_data) ;;
     if has_id then
       masked <- lift (mask_token page_access_token) ;;
       reply_id <- lift (py_get response_data "id" JNull) ;;
       ts <- now_iso ;;
       ret (JObj [("page_access_token", masked); ("reply_text", reply_text);
                  ("mentioned_user", mentioned_user); ("status", JStr "success");
                  ("original_comment_id", original_comment_id); ("reply_id", reply_id);
                  ("timestamp", ts)])
     else
       masked <- lift (mask_token page_access_token) ;;
       err <- lift (py_get response_data "error" (JObj [])) ;;
       ts <- now_iso ;;
       ret (JObj [("page_access_token", masked); ("reply_text", reply_text);
                  ("mentioned_user", mentioned_user); ("status", JStr "error");
                  ("original_comment_id", original_comment_id); ("error_details", err);
                  ("timestamp", ts)]))
    (fun e =>
       masked <- lift (mask_token page_access_token) ;;
       ts <- now_iso ;;
       ret (JObj [("page_access_token", masked); ("reply_text", reply_text);
                  ("mentioned_user", mentioned_user); ("status", JStr "error");
                  ("original_comment_id", original_comment_id);
                  ("error_details", JStr (exc_str e)); ("timestamp", ts)])).

Definition messages_url : string := "https://graph.facebook.com/v18.0/me/messages".

(** The [except Exception] record of the Messenger calls. *)
Definition messenger_exception_record (e : exc) : M json :=
  ts <- now_iso ;;
  ret (JObj [("status", JStr "error"); ("error_details", JStr (exc_str e)); ("timestamp", ts)]).

(** The record of a reply without [message_id]. *)
Definition messenger_error_record (result : json) : M json :=
  err <- lift (py_get result "error" (JObj [])) ;;
  ts <- now_iso ;;
  ret (JObj [("status", JStr "error"); ("error_details", err); ("timestamp", ts)]).

(** [FacebookService.send_message] *)
Definition send_message (recipient_id message_text page_access_token : json) : M json :=
  let payload := JObj [("recipient", JObj [("id", recipient_id)]);
                       ("message", JObj [("text", message_text)]);
                       ("messaging_type", JStr "RESPONSE")] in
  let params := [("access_token", page_access_token)] in
  catch_all
    (response <- requests_post_json messages_url payload params ;;
     result <- response_json response ;;
     has_mid <- lift (py_in "message_id" result) ;;
     if has_mid then
       mid <- lift (py_index result "message_id") ;;
       ts <- now_iso ;;
       ret (JObj [("status", JStr "success"); ("message_id", mid);
                  ("recipient_id", recipient_id); ("timestamp", ts)])
     else messenger_error_record result)
    messenger_exception_record.

(** [FacebookService.send_message_with_attachment] *)
Definition send_message_with_attachment (recipient_id attachment_type attachment_url page_access_token : json)
  : M json :=
  let payload := JObj [("recipient", JObj [("id", recipient_id)]);
                       ("message", JObj [("attachment",
                          JObj [("type", attachment_type);
                                ("payload", JObj [("url", attachment_url)])])]);
                       ("messaging_type", JStr "RESPONSE")] in
  let params := [("access_token", page_access_token)] in
  catch_all
    (response <- requests_post_json messages_url payload params ;;
     result <- response_json response ;;
     has_mid <- lift (py_in "message_id" result) ;;
     if has_mid then
       mid <- lift (py_index result "message_id") ;;
       ts <- now_iso ;;
       ret (JObj [("status", JStr "success"); ("message_id", mid);
                  ("recipient_id", recipient_id); ("attachment_type", attachment_type);
                  ("timestamp", ts)])
     else messenger_error_record result)
    messenger_exception_record.

(** The formatting loop of [send_quick_reply_message]. *)
Fixpoint format_quick_replies (replies : list json) : result (list json) :=
  match replies with
  | [] => Ok []
  | reply :: rest =>
      title <-? py_index reply "title" ;;
      payload <-? py_index reply "payload" ;;
      rest' <-? format_quick_replies rest ;;
      Ok (JObj [("content_type", JStr "text"); ("title", title); ("payload", payload)] :: rest')
  end.

(** [FacebookService.send_quick_reply_message]: the formatting loop runs
    before the [try]. *)
Definition send_quick_reply_message (recipient_id message_text quick_replies page_access_token : json)
  : M json :=
  replies <- lift (py_iter quick_replies) ;;
  formatted <- lift (format_quick_replies replies) ;;
  let payload := JObj [("recipient", JObj [("id", recipient_id)]);
                       ("message", JObj [("text", message_text);
                                         ("quick_replies", JArr formatted)]);
                       ("messaging_type", JStr "RESPONSE")] in
  let params := [("access_token", page_access_token)] in
  catch_all
    (response <- requests_post_json messages_url payload params ;;
     result <- response_json response ;;
     has_mid <- lift (py_in "message_id" result) ;;
     if has_mid then
       mid <- lift (py_index result "message_id") ;;
       n <- lift (py_len quick_replies) ;;
       ts <- now_iso ;;
       ret (JObj [("status", JStr "success"); ("message_id", mid);
                  ("recipient_id", recipient_id); ("quick_replies_count", JNum (Z.of_nat n));
                  ("timestamp", ts)])
     else messenger_error_record result)
    messenger_exception_record.

(** [FacebookService.send_template_message] *)
Definition send_template_message (recipient_id template_type elements page_access_token : json)
  : M json :=
  let payload := JObj [("recipient", JObj [("id", recipient_id)]);
                       ("message", JObj [("attachment",
                          JObj [("type", JStr "template");
                                ("payload", JObj [("template_type", template_type);
                                                  ("elements", elements)])])]);
                       ("messaging_type", JStr "RESPONSE")] in
  let params := [("access_token", page_access_token)] in
  catch_all
    (response <- requests_post_json messages_url payload params ;;
     result <- response_json response ;;
     has_mid <- lift (py_in "message_id" result) ;;
     if has_mid then
       mid <- lift (py_index result "message_id") ;;
       ts <- now_iso ;;
       ret (JObj [("status", JStr "success"); ("message_id", mid);
                  ("recipient_id", recipient_id); ("template_type", template_type);
                  ("timestamp", ts)])
     else messenger_error_record result)
    messenger_exception_record.

(** [FacebookService.mark_message_as_seen] *)
Definition mark_message_as_seen (sender_id page_access_token : json) : M json :=
  let payload := JObj [("recipient", JObj [("id", sender_id)]);
                       ("sender_action", JStr "mark_seen")] in
  let params := [("access_token", page_access_token)] in
  catch_all
    (response <- requests_post_json messages_url payload params ;;
     result <- response_json response ;;
     seen <- lift (py_in "recipient_id" result) ;;
     ts <- now_iso ;;
     ret (JObj [("status", JStr (if seen then "success" else "error"));
                ("sender_id", sender_id); ("action", JStr "mark_seen");
                ("response", result); ("timestamp", ts)]))
    messenger_exception_record.

(** [FacebookService.set_typing_indicator] *)
Definition set_typing_indicator (recipient_id action page_access_token : json) : M json :=
  let payload := JObj [("recipient", JObj [("id", recipient_id)]);
                       ("sender_action", action)] in
  let params := [("access_token", page_access_token)] in
  catch_all
    (response <- requests_post_json messages_url payload params ;;
     result <- response_json response ;;
     ok <- lift (py_in "recipient_id" result) ;;
     ts <- now_iso ;;
     ret (JObj [("status", JStr (if ok then "success" else "error"));
                ("recipient_id", recipient_id); ("action", action);
                ("response", result); ("timestamp", ts)]))
    messenger_exception_record.

(** [FacebookService.get_user_profile] *)
Definition get_user_profile (user_id page_access_token fields : json) : M json :=
  let fields := match fields with JNull => JStr "first_name,last_name,profile_pic" | f => f end in
  catch_all
    (response <- requests_get (graph "v18.0" (py_str user_id))
                   [("fields", fields); ("access_token", page_access_token)] ;;
     result <- response_json response ;;
     has_first <- lift (py_in "first_name" result) ;;
     found <- (if has_first then ret true else lift (py_in "id" result)) ;;
     if found then
       ts <- now_iso ;;
       ret (JObj [("status", JStr "success"); ("user_profile", result); ("timestamp", ts)])
     else messenger_error_record result)
    messenger_exception_record.

(** [FacebookService.get_instagram_profile_details] *)
Definition get_instagram_profile_details (instagram_id page_access_token : json) : M json :=
  catch_all
    (response <- requests_get (graph "v18.0" (py_str instagram_id))
                   [("fields", JStr "biography,username,profile_picture_url,website,followers_count,follows_count,media_count,name,ig_id");
                    ("access_token", page_access_token)] ;;
     result <- response_json response ;;
     has_err <- lift (py_in "error" result) ;;
     if has_err then
       _ <- lift (py_index result "error") ;;
       err <- lift (py_index result "error") ;;
       ts <- now_iso ;;
       ret (JObj [("status", JStr "error"); ("error_details", err); ("timestamp", ts)])
     else
       id <- lift (py_get result "id" JNull) ;;
       ig_id <- lift (py_get result "ig_id" JNull) ;;
       username <- lift (py_get result "username" JNull) ;;
       name <- lift (py_get result "name" JNull) ;;
       biography <- lift (py_get result "biography" JNull) ;;
       website <- lift (py_get result "website" JNull) ;;
       picture <- lift (py_get result "profile_picture_url" JNull) ;;
       followers <- lift (py_get result "followers_count" JNull) ;;
       follows <- lift (py_get result "follows_count" JNull) ;;
       media <- lift (py_get result "media_count" JNull) ;;
       ts <- now_iso ;;
       ret (JObj [("status", JStr "success"); ("instagram_id", id); ("ig_id", ig_id);
                  ("username", username); ("name", name); ("biography", biography);
                  ("website", website); ("profile_picture_url", picture);
                  ("followers_count", followers); ("follows_count", follows);
                  ("media_count", media); ("timestamp", ts)]))
    messenger_exception_record.

(** [FacebookService.post_reel] *)
Definition post_reel (page_id page_access_token description video_url : json) : M json :=
  result <- init_reel_upload page_id page_access_token description video_url (JStr "facebook") ;;
  lift (py_setitem result "message"
    (JStr "Reel upload initiated. Please use the state machine approach (init_reel_upload, check_reel_upload_status, publish_reel) to handle the multi-step process.")).

(** The Instagram lookup loop of [get_facebook_pages]: each page dict gets
    its [instagram_id]. *)
Fixpoint fetch_instagram_ids (pages : list json) : M (list json) :=
  match pages with
  | [] => ret []
  | page :: rest =>
      page_token <- lift (py_get page "access_token" JNull) ;;
      page_id <- lift (py_get page "id" JNull) ;;
      ig <- requests_get (graph "v18.0" (py_str page_id))
              [("fields", JStr "instagram_business_account"); ("access_token", page_token)] ;;
      ig_response <- response_json ig ;;
      ig_account <- lift (py_get ig_response "instagram_business_account" JNull) ;;
      ig_id <- (if truthy ig_account then lift (py_index ig_account "id") else ret JNull) ;;
      page' <- lift (py_setitem page "instagram_id" ig_id) ;;
      rest' <- fetch_instagram_ids rest ;;
      ret (page' :: rest')
  end.

(** [FacebookService.get_facebook_pages]: the page dicts are updated in
    place and the list [data["data"]] is returned.  A [data] that is not a
    list can only get through the loop when it yields nothing, and is then
    returned unchanged. *)
Definition get_facebook_pages (user_access_token : json) : M json :=
  response <- requests_get "https://graph.facebook.com/v18.0/me/accounts"
                [("fields", JStr "id,name,access_token,category,about,bio,description,story,fan_count,link,website,picture");
                 ("access_token", user_access_token)] ;;
  data <- response_json response ;;
  has_data <- lift (py_in "data" data) ;;
  if negb has_data then ret (JObj [("error", data)])
  else
    pages <- lift (py_index data "data") ;;
    ps <- lift (py_iter pages) ;;
    ps' <- fetch_instagram_ids ps ;;
    ret (match pages with JArr _ => JArr ps' | _ => pages end).

(** [{page["id"]: page for page in pages_data}] *)
Fixpoint build_page_dict (pages : list json) (acc : pydict) : result pydict :=
  match pages with
  | [] => Ok acc
  | page :: rest =>
      k <-? py_index page "id" ;;
      _ <-? py_hashable k ;;
      build_page_dict rest (pydict_set k page acc)
  end.

(** [FacebookService.get_page_subscriptions] *)
Definition get_page_subscriptions (page_id page_access_token : json) : M json :=
  catch_all
    (response <- requests_get (graph "v18.0" (py_str page_id ++ "/subscribed_apps"))
                   [("access_token", page_access_token)] ;;
     result <- response_json response ;;
     has_data <- lift (py_in "data" result) ;;
     subscriptions <-
       (if has_data then
          apps <- lift (py_index result "data") ;;
          apps' <- lift (py_iter apps) ;;
          lift (map_result (fun app =>
                  app_id <-? py_get app "id" JNull ;;
                  app_name <-? py_get app "name" (JStr "Unknown") ;;
                  fields <-? py_get app "subscribed_fields" (JArr []) ;;
                  Ok (JObj [("app_id", app_id); ("app_name", app_name);
                            ("subscribed_fields", fields)])) apps')
        else ret []) ;;
     ts <- now_iso ;;
     ret (JObj [("status", JStr "success"); ("page_id", page_id);
                ("subscriptions", JArr subscriptions); ("raw_response", result);
                ("timestamp", ts)]))
    (fun e =>
       ts <- now_iso ;;
       ret (JObj [("status", JStr "error"); ("page_id", page_id);
                  ("error_details", JStr (exc_str e)); ("timestamp", ts)])).

(** [_store_page_token]: a DynamoDB write, outside the modelled world,
    whose every exception is caught inside it. *)
Definition _store_page_token (page_id access_token : json) : M unit := ret tt.

Section AppCredentials.

(** [self.app_id] and [self.app_secret], read from Secrets Manager. *)
Variables app_id app_secret : json.

Definition oauth_url : string := "https://graph.facebook.com/v18.0/oauth/access_token".

(** [FacebookService.get_user_access_token] *)
Definition get_user_access_token (auth_code redirect_uri : json) : M json :=
  response <- requests_get oauth_url
                [("client_id", app_id); ("client_secret", app_secret);
                 ("redirect_uri", redirect_uri); ("code", auth_code)] ;;
  response_json response.

(** [FacebookService.extend_user_access_token] *)
Definition extend_user_access_token (short_lived_token : json) : M json :=
  response <- requests_get oauth_url
                [("grant_type", JStr "fb_exchange_token"); ("client_id", app_id);
                 ("client_secret", app_secret); ("fb_exchange_token", short_lived_token)] ;;
  response_json response.

(** [FacebookService.extend_page_access_token] *)
Definition extend_page_access_token (page_access_token : json) : M json :=
  response <- requests_get oauth_url
                [("grant_type", JStr "fb_exchange_token"); ("client_id", app_id);
                 ("client_secret", app_secret); ("fb_exchange_token", page_access_token);
                 ("access_type", JStr "page")] ;;
  response_json response.

(** [FacebookService.extract_page_info] *)
Definition extract_page_info (pages_data page_id : json) : M json :=
  pages <- lift (py_iter pages_data) ;;
  page_dict <- lift (build_page_dict pages []) ;;
  _ <- lift (py_hashable page_id) ;;
  match pydict_lookup page_id page_dict with
  | Some page =>
      page_access_token <- lift (py_get page "access_token" (JStr "N/A")) ;;
      extended <- extend_page_access_token page_access_token ;;
      _ <- lift (py_index extended "access_token") ;;
      _ <- catch_all (t <- lift (py_index extended "access_token") ;;
                      _store_page_token page_id t)
                     (fun _ => ret tt) ;;
      name <- lift (py_get page "name" (JStr "N/A")) ;;
      category <- lift (py_get page "category" (JStr "N/A")) ;;
      about <- lift (py_get page "about" (JStr "N/A")) ;;
      token <- lift (py_get page "access_token" (JStr "N/A")) ;;
      bio <- lift (py_get page "bio" (JStr "N/A")) ;;
      description <- lift (py_get page "description" (JStr "N/A")) ;;
      story <- lift (py_get page "story" (JStr "N/A")) ;;
      ret (JObj [("name", name); ("category", category); ("about", about);
                 ("access_token", token); ("bio", bio); ("description", description);
                 ("story", story)])
  | None => ret (JObj [("error", JStr "Page ID not found")])
  end.

(** [FacebookService.subscribe_app_to_page] *)
Definition subscribe_app_to_page (page_id page_access_token fields : json) : M json :=
  let fields := match fields with JNull => JStr "feed" | f => f end in
  catch_all
    (response <- requests_post (graph "v18.0" (py_str page_id ++ "/subscribed_apps"))
                   [("access_token", page_access_token); ("subscribed_fields", fields)] [] ;;
     result <- response_json response ;;
     extended <- extend_page_access_token page_access_token ;;
     _ <- lift (py_index extended "access_token") ;;
     t <- lift (py_index extended "access_token") ;;
     _ <- _store_page_token page_id t ;;
     success <- lift (py_get result "success" JNull) ;;
     ts <- now_iso ;;
     ret (JObj [("status", JStr (if truthy success then "success" else "error"));
                ("page_id", page_id); ("subscribed_fields", fields);
                ("response", result); ("timestamp", ts)]))
    (fun e =>
       ts <- now_iso ;;
       ret (JObj [("status", JStr "error"); ("page_id", page_id);
                  ("error_details", JStr (exc_str e)); ("timestamp", ts)])).

End AppCredentials.

Section Unsubscribe.

(** [requests.delete(url, params=params)]: a DELETE, which [http_method]
    does not name, left to the caller. *)
Variable requests_delete : string -> dict -> M (option json).

(** [FacebookService.unsubscribe_app_from_page_fields] *)
Definition unsubscribe_app_from_page_fields (page_id page_access_token fields_to_remove : json)
  : M json :=
  let url := graph "v18.0" (py_str page_id ++ "/subscribed_apps") in
  let fields_to_remove := match fields_to_remove with JStr s => JArr [JStr s] | f => f end in
  catch_all
    (current <- get_page_subscriptions page_id page_access_token ;;
     status <- lift (py_index current "status") ;;
     if py_eqb status (JStr "error") then ret current
     else
       subs <- lift (py_index current "subscriptions") ;;
       current_fields <-
         (if truthy subs then
            first <- lift (py_item0 subs) ;;
            lift (py_get first "subscribed_fields" (JArr []))
          else ret (JArr [])) ;;
       cfs <- lift (py_iter current_fields) ;;
       updated_fields <-
         lift (filter_result (fun field => b <-? py_contains field fields_to_remove ;; Ok (negb b))
                 cfs) ;;
       response <-
         (if negb (Nat.eqb (length updated_fields) 0) then
            joined <- lift (py_join "," updated_fields) ;;
            requests_post url [("access_token", page_access_token);
                               ("subscribed_fields", JStr joined)] []
          else requests_delete url [("access_token", page_access_token)]) ;;
       result <- response_json response ;;
       success <- lift (py_get result "success" JNull) ;;
       ts <- now_iso ;;
       ret (JObj [("status", JStr (if truthy success then "success" else "error"));
                  ("page_id", page_id); ("removed_fields", fields_to_remove);
                  ("remaining_fields", JArr updated_fields); ("response", result);
                  ("timestamp", ts)]))
    (fun e =>
       ts <- now_iso ;;
       ret (JObj [("status", JStr "error"); ("page_id", page_id);
                  ("error_details", JStr (exc_str e)); ("timestamp", ts)])).

End Unsubscribe.

Section StepActions.

Variables app_id app_secret : json.

(** [FacebookService.post_to_instagram], not modelled here. *)
Variable post_to_instagram : json -> json -> json -> json -> json -> M json.

(** The [create_live_stream] branch of the dispatcher, not modelled here:
    it parses [live_stream_data] with [json.loads] and reads
    [response.ok] and [response.text]. *)
Variable create_live_stream_action : dict -> M json.

(** The actions of [handle_step_function_request] that the dispatcher
    model above leaves to [other_action], ending in the [raise ValueError]
    for an unknown action.  The branch tests compare [action] with
    distinct strings, so their order does not matter. *)
Definition step_other_action (action : json) (event : dict) : M json :=
  if py_eqb action (JStr "get_pages") then
    get_facebook_pages (ev_get event "userToken" JNull)
  else if py_eqb action (JStr "get_page_info") then
    let user_access_token := ev_get event "userToken" JNull in
    let page_id := ev_get event "pageId" JNull in
    pages_data <- get_facebook_pages user_access_token ;;
    match pages_data with
    | JArr _ => extract_page_info app_id app_secret pages_data page_id
    | _ => missing "Failed to retrieve pages data"
    end
  else if py_eqb action (JStr "post_to_page") then
    let page_id := ev_get event "page_id" JNull in
    let page_access_token := ev_get event "page_access_token" JNull in
    let message := ev_get event "message" JNull in
    let mediaType := ev_get event "mediaType" (JBool false) in
    let mm_url := ev_get event "mm_url" JNull in
    if negb (truthy page_id) || negb (truthy page_access_token) || negb (truthy message) then
      missing "Missing required parameters"
    else
      let social_media := ev_get event "social_media" (JStr "Facebook") in
      if py_eqb social_media (JStr "Instagram") then
        let instagram_id := page_id in
        if negb (truthy instagram_id) then missing "Missing required parameter: instagram_id"
        else post_to_instagram instagram_id page_access_token message mediaType mm_url
      else post_to_facebook_page page_id page_access_token message mediaType mm_url
  else if py_eqb action (JStr "post_reel") then
    let page_id := ev_get event "page_id" JNull in
    let page_access_token := ev_get event "page_access_token" JNull in
    let description := ev_get event "message" JNull in
    let video_url := ev_get event "mm_url" JNull in
    if negb (truthy page_id) || negb (truthy page_access_token) || negb (truthy description)
       || negb (truthy video_url) then
      missing "Missing required parameters: page_id, page_access_token, description, or video_url"
    else post_reel page_id page_access_token description video_url
  else if py_eqb action (JStr "create_live_stream") then
    create_live_stream_action event
  else if py_eqb action (JStr "extend_token") then
    extend_user_access_token app_id app_secret (ev_get event "token" JNull)
  else if py_eqb action (JStr "get_access_token") then
    get_user_access_token app_id app_secret (ev_get event "authCode" JNull)
      (ev_get event "redirectUri" JNull)
  else if py_eqb action (JStr "get_page_feed") then
    let page_id := ev_get event "page_id" JNull in
    let page_access_token := ev_get event "page_access_token" JNull in
    let limit := ev_get event "limit" (JNum 25) in
    let fields := ev_get event "fields" JNull in
    if negb (truthy page_id) || negb (truthy page_access_token) then
      missing "Missing required parameters: page_id and page_access_token"
    else get_page_feed page_id page_access_token limit fields
  else if py_eqb action (JStr "reply_to_comment") then
    let original_comment_id := ev_get event "original_comment_id" JNull in
    let page_access_token := ev_get event "page_access_token" JNull in
    let reply_text := ev_get event "reply_text" JNull in
    let commenter_id := ev_get event "commenter_id" JNull in
    if negb (truthy original_comment_id) || negb (truthy page_access_token)
       || negb (truthy reply_text) then
      ts <- now_iso ;;
      ret (JObj [("status", JStr "error"); ("error_details", JStr "Missing required parameters");
                 ("timestamp", ts)])
    else reply_to_comment original_comment_id page_access_token reply_text commenter_id
  else if py_eqb action (JStr "send_message") then
    let recipient_id := ev_get event "recipient_id" JNull in
    let message_text := ev_get event "message_text" JNull in
    let page_access_token := ev_get event "page_access_token" JNull in
    if negb (truthy recipient_id) || negb (truthy message_text) || negb (truthy page_access_token) then
      missing "Missing required parameters"
    else send_message recipient_id message_text page_access_token
  else if py_eqb action (JStr "send_message_attachment") then
    let recipient_id := ev_get event "recipient_id" JNull in
    let attachment_type := ev_get event "attachment_type" JNull in
    let attachment_url := ev_get event "attachment_url" JNull in
    let page_access_token := ev_get event "page_access_token" JNull in
    if negb (forallb truthy [recipient_id; attachment_type; attachment_url; page_access_token]) then
      missing "Missing required parameters"
    else send_message_with_attachment recipient_id attachment_type attachment_url page_access_token
  else if py_eqb action (JStr "get_user_profile") then
    let user_id := ev_get event "user_id" JNull in
    let page_access_token := ev_get event "page_access_token" JNull in
    let fields := ev_get event "fields" JNull in
    if negb (truthy user_id) || negb (truthy page_access_token) then
      missing "Missing required parameters"
    else get_user_profile user_id page_access_token fields
  else if py_eqb action (JStr "get_instagram_profile") then
    let instagram_id := ev_get event "instagram_id" JNull in
    let page_access_token := ev_get event "page_access_token" JNull in
    if negb (truthy instagram_id) || negb (truthy page_access_token) then
      missing "Missing required parameters: instagram_id and page_access_token"
    else get_instagram_profile_details instagram_id page_access_token
  else raise (ValueError ("Invalid action: " ++ py_str action)).

End StepActions.

(* ================================================================== *)
(** * Properties of the program *)

(** [returns_only P m]: whatever the world, a value returned by [m]
    satisfies [P] (raised exceptions are not constrained). *)
Definition returns_only {A} (P : A -> Prop) (m : M A) : Prop :=
  forall w, match snd (m w) with Ok a => P a | Exc _ => True end.

(** [m] returns a value in every world. *)
Definition never_raises {A} (m : M A) : Prop :=
  forall w, exists a, snd (m w) = Ok a.


(** Concrete worlds and collaborators for the examples: every request
    gets [reply]; the token store knows every page. *)
Definition sample_world (reply : outcome) : world :=
  mkWorld (fun _ => reply) (fun _ => Some (JStr "page-token")) "2026-01-01T00:00:00"
    (fun _ => "Traceback").

Definition no_method (_ : string) (_ : list json) : M json := ret JNull.

Definition no_action (_ : json) (_ : dict) : M json := ret JNull.

Definition no_api (_ : dict) : M handler_response := ret (Returned JNull).


(** A dict whose [video_id] and [creation_id], when present, are [vid]. *)
Definition echoes_id (vid : json) (j : json) : Prop :=
  exists d, j = JObj d /\
    (forall v, dlookup "video_id" d = Some v -> v = vid) /\
    (forall v, dlookup "creation_id" d = Some v -> v = vid).

(** [response.json()] applied to the outcome of a request, or the exception raised on the way. *)
Definition outcome_json (o : outcome) : result json :=
  match o with
  | Reply (Some j) => Ok j
  | Reply None => Exc JSONDecodeError
  | Unreachable m => Exc (RequestException m)
  end.

(** A tagged result record: a dict with a string [status] and a [timestamp]. *)
Definition tagged (j : json) : Prop :=
  exists d s ts, j = JObj d /\ dlookup "status" d = Some (JStr s) /\ dlookup "timestamp" d = Some ts.

(** A fetch fails when the request raises or the body is not JSON. *)
Definition fetch_failed (o : outcome) : bool :=
  match o with Reply None | Unreachable _ => true | Reply (Some _) => false end.

(** A readable Graph reply: a JSON object whose [comments] field, if any, is an object. *)
Definition graph_object (o : outcome) : Prop :=
  exists d, o = Reply (Some (JObj d)) /\
    forall c, dlookup "comments" d = Some c -> exists e, c = JObj e.

Definition fetch_ok_or_failed (o : outcome) : Prop :=
  fetch_failed o = true \/ graph_object o.

(** The second fetch of [_get_comment_thread_context]. *)
Definition thread_request (post_id parent_id : json) (is_top_level : bool) (tok : json) : request :=
  if is_top_level then sibling_comments_request post_id tok else parent_comment_request parent_id tok.

(** [d.get(k)] *)
Definition dget (k : string) (d : dict) : json :=
  match dlookup k d with Some x => x | None => JNull end.

(** The token [_get_stored_page_token] returns. *)
Definition stored_token (w : world) (page_id : json) : json :=
  match w_token_store w page_id with Some t => t | None => JNull end.

(** Sample Step Functions events and webhook payloads. *)
Definition instagram_create_event : dict :=
  [("action", JStr "create_instagram_media"); ("instagram_id", JStr "17841400000000000");
   ("page_access_token", JStr "tok"); ("caption", JStr "hello");
   ("mediaType", JStr "video"); ("mm_url", JStr "https://example.com/v.mp4")].



Definition sample_from (commenter : string) : dict :=
  [("id", JStr commenter); ("name", JStr "Someone")].

Definition sample_comment (commenter : string) : dict :=
  [("item", JStr "comment"); ("verb", JStr "add"); ("from", JObj (sample_from commenter));
   ("comment_id", JStr "p1_c2"); ("post_id", JStr "p1"); ("parent_id", JStr "p1_c1");
   ("message", JStr "nice"); ("created_time", JNum 1700000000)].

Definition sample_change (commenter : string) : dict :=
  [("field", JStr "feed"); ("value", JObj (sample_comment commenter))].

Definition sample_entry (changes : list json) : dict :=
  [("id", JStr "111"); ("time", JNum 1700000000); ("changes", JArr changes)].

Definition sample_payload (changes : list json) : dict :=
  [("object", JStr "page"); ("entry", JArr [JObj (sample_entry changes)])].

(** Only the page-owner request gets an answer; every thread fetch times out. *)
Definition owner_only_world : world :=
  mkWorld
    (fun rq => if String.eqb (rq_url rq) "https://graph.facebook.com/v18.0/111"
               then Reply (Some (JObj [("id", JStr "111"); ("name", JStr "Page")]))
               else Unreachable "Read timed out")
    (fun _ => Some (JStr "page-token")) "2026-01-01T00:00:00" (fun _ => "Traceback").

(** Messaging events whose [sender], [recipient] and typed payloads, when
    present, are dicts, as the Messenger platform sends them. *)
Definition obj_or_absent (k : string) (d : dict) : bool :=
  match dlookup k d with None => true | Some (JObj _) => true | Some _ => false end.

Definition messaging_event_ok (ev : json) : bool :=
  match ev with
  | JObj d => forallb (fun k => obj_or_absent k d)
                ["sender"; "recipient"; "message"; "postback"; "delivery"; "read"]
  | _ => false
  end.

(** A webhook entry whose [messaging] list, if any, holds such events. *)
Definition messaging_entry_ok (ed : dict) : bool :=
  match dlookup "messaging" ed with
  | None => true
  | Some (JArr evs) => forallb messaging_event_ok evs
  | Some _ => false
  end.

Definition entry_events (ed : dict) : list json :=
  match dlookup "messaging" ed with Some (JArr evs) => evs | _ => [] end.

(** The [page_id] an emitted event carries. *)
Definition page_id_of (o : json) : option json :=
  match o with JObj i => dlookup "page_id" i | _ => None end.

Definition is_obj (j : json) : bool := match j with JObj _ => true | _ => false end.

(** The comment reply [reply_to_comment] posts. *)
Definition reply_request (cid tok text commenter : json) : request :=
  mkRequest POST (graph "v18.0" (py_str cid ++ "/comments"))
    [("message", if truthy commenter
                 then JStr ("@[" ++ py_str commenter ++ "] " ++ py_str text) else text);
     ("access_token", tok)] [].

(** The Send API call of [send_message]. *)
Definition send_message_request (rid text tok : json) : request :=
  mkRequest POST messages_url
    [("access_token", tok);
     ("json", JObj [("recipient", JObj [("id", rid)]); ("message", JObj [("text", text)]);
                    ("messaging_type", JStr "RESPONSE")])] [].

(** A quick reply option with a [title] and a [payload]. *)
Definition quick_reply_ok (r : json) : bool :=
  match r with JObj d => din "title" d && din "payload" d | _ => false end.

(** The token exchange of [extend_page_access_token]. *)
Definition extend_page_token_request (app_id app_secret tok : json) : request :=
  mkRequest GET oauth_url
    [("grant_type", JStr "fb_exchange_token"); ("client_id", app_id);
     ("client_secret", app_secret); ("fb_exchange_token", tok);
     ("access_type", JStr "page")] [].

(** A page dict whose [id] is a string. *)
Definition string_id_page (p : json) : Prop :=
  exists d s, p = JObj d /\ dlookup "id" d = Some (JStr s).

(** [page.get(k, "N/A")] *)
Definition page_field (k : string) (d : dict) : json :=
  match dlookup k d with Some v => v | None => JStr "N/A" end.

(** The record [extract_page_info] builds from a page. *)
Definition page_info_record (d : dict) : json :=
  JObj [("name", page_field "name" d); ("category", page_field "category" d);
        ("about", page_field "about" d); ("access_token", page_field "access_token" d);
        ("bio", page_field "bio" d); ("description", page_field "description" d);
        ("story", page_field "story" d)].

(** The first request of [get_facebook_pages]. *)
Definition accounts_request (tok : json) : request :=
  mkRequest GET "https://graph.facebook.com/v18.0/me/accounts"
    [("fields", JStr "id,name,access_token,category,about,bio,description,story,fan_count,link,website,picture");
     ("access_token", tok)] [].


(** The subscription lookup of [get_page_subscriptions]. *)
Definition subscriptions_request (page_id tok : json) : request :=
  mkRequest GET (graph "v18.0" (py_str page_id ++ "/subscribed_apps"))
    [("access_token", tok)] [].

(** Every action name [handle_step_function_request] dispatches on. *)
Definition step_actions : list string :=
  ["get_pages"; "get_page_info"; "post_to_page"; "create_instagram_media";
   "check_instagram_media_status"; "publish_instagram_media"; "post_reel";
   "init_reel_upload"; "upload_hosted_file"; "check_reel_upload_status"; "publish_reel";
   "create_live_stream"; "extend_token"; "get_access_token"; "get_page_feed";
   "reply_to_comment"; "send_message"; "send_message_attachment"; "get_user_profile";
   "get_instagram_profile"].

(** A dict whose [status] is the string [success] or [error] and which
    has a [timestamp]. *)
Definition success_or_error (j : json) : Prop :=
  exists d s ts, j = JObj d /\ dlookup "status" d = Some (JStr s) /\
    (s = "success" \/ s = "error") /\ dlookup "timestamp" d = Some ts.

(** A computation that returns, in every world, a dict whose [status] is
    [success] or [error]. *)
Definition always_tagged (m : M json) : Prop :=
  forall w, exists tr r, m w = (tr, Ok r) /\ success_or_error r.

(** The POST [send_quick_reply_message] makes, with the formatted replies. *)
Definition quick_reply_request (rid text : json) (formatted : list json) (tok : json) : request :=
  mkRequest POST messages_url
    [("access_token", tok);
     ("json", JObj [("recipient", JObj [("id", rid)]);
                    ("message", JObj [("text", text); ("quick_replies", JArr formatted)]);
                    ("messaging_type", JStr "RESPONSE")])] [].

(** A Python dict whose keys are all strings. *)
Definition str_keyed (d : pydict) : Prop := Forall (fun kv => exists s, fst kv = JStr s) d.

(** [[field for field in current_fields if field not in fields_to_remove]]
    on strings. *)
Definition remaining_fields (cur rm : list string) : list string :=
  filter (fun f => negb (existsb (String.eqb f) rm)) cur.

(** The POST [unsubscribe_app_from_page_fields] makes when fields are left. *)
Definition subscription_update_request (page_id tok : json) (fields : list string) : request :=
  mkRequest POST (graph "v18.0" (py_str page_id ++ "/subscribed_apps"))
    [("access_token", tok); ("subscribed_fields", JStr (String.concat "," fields))] [].



(** A page subscribed to [feed] and [messages], and a world whose GETs
    return it and whose POSTs succeed. *)
Definition subs_app0 : dict :=
  [("id", JStr "app1"); ("name", JStr "Page bot");
   ("subscribed_fields", JArr [JStr "feed"; JStr "messages"])].

Definition subs_reply : dict := [("data", JArr [JObj subs_app0])].

Definition subs_world : world :=
  mkWorld (fun rq => match rq_method rq with
                     | GET => Reply (Some (JObj subs_reply))
                     | POST => Reply (Some (JObj [("success", JBool true)]))
                     end)
          (fun _ => None) "2026-01-01T00:00:00" (fun _ => "Traceback").



(* ------------------------------------------------------------------ *)
(** ** Stream URLs *)

(** [urlparse] raises nothing but [ValueError]. *)
Lemma split_netloc_exc chk u e : split_netloc chk u = Exc e -> exists m, e = ValueError m.
Proof.
  unfold split_netloc.
  destruct (startswith u "//"); [|discriminate].
  destruct (span_until _ _) as [netloc rest].
  destruct (_ || _); [injection 1; eauto|].
  destruct (_ && _ && _); [injection 1; eauto|discriminate].
Qed.

Lemma urlparse_exc chk url e : urlparse chk url = Exc e -> exists m, e = ValueError m.
Proof.
  unfold urlparse, urlsplit.
  destruct (split_scheme _) as [scheme url2].
  destruct (split_netloc chk url2) as [[netloc url3]|e'] eqn:E; simpl.
  - repeat match goal with
           | |- context [match ?x with Some _ => _ | None => _ end] => destruct x as [[? ?]|]
           | |- context [if ?b then _ else _] => destruct b
           | |- context [let '(_, _) := ?p in _] => destruct p
           end; intros H; cbn in H;
    repeat match type of H with
           | context [if ?b then _ else _] => destruct b
           | context [let '(_, _) := ?p in _] => destruct p
           end; discriminate H.
  - injection 1 as <-. eapply split_netloc_exc; eauto.
Qed.

(** C8. [extract_stream_details] splits the documented example into
    server URL [rtmps://live-api-s.facebook.com:443/rtmp] and stream key
    [123?s_bl=1]; and every URL whose parsed path does not start with
    [/rtmp/] makes it raise [ValueError] instead of returning. *)
Theorem extract_stream_details_example_and_prefix (bracketed_netloc_ok : string -> bool) :
  extract_stream_details bracketed_netloc_ok
    "rtmps://live-api-s.facebook.com:443/rtmp/123?s_bl=1"
    = Ok ("rtmps://live-api-s.facebook.com:443/rtmp", "123?s_bl=1") /\
  forall url,
    (forall r, urlparse bracketed_netloc_ok url = Ok r -> startswith (pr_path r) "/rtmp/" = false) ->
    exists m, extract_stream_details bracketed_netloc_ok url = Exc (ValueError m).
Proof.
  split; [reflexivity|].
  intros url Hpath. unfold extract_stream_details.
  destruct (urlparse bracketed_netloc_ok url) as [r|e] eqn:E; cbn.
  - rewrite (Hpath r eq_refl). cbn. eauto.
  - destruct (urlparse_exc _ _ _ E) as [m ->]. eauto.
Qed.

Lemma extract_stream_details_example_and_prefix_witness :
  (forall r, urlparse (fun _ => true) "rtmps://live-api-s.facebook.com:443/live/123" = Ok r ->
     startswith (pr_path r) "/rtmp/" = false) /\
  exists m, extract_stream_details (fun _ => true) "rtmps://live-api-s.facebook.com:443/live/123"
            = Exc (ValueError m).
Proof.
  assert (H : forall r, urlparse (fun _ => true) "rtmps://live-api-s.facebook.com:443/live/123" = Ok r ->
     startswith (pr_path r) "/rtmp/" = false)
    by (intros r E; vm_compute in E; injection E as <-; reflexivity).
  split; [exact H|].
  exact (proj2 (extract_stream_details_example_and_prefix (fun _ => true)) _ H).
Defined.

(* ------------------------------------------------------------------ *)
(** ** Step Functions dispatcher *)

(** C10. A Step Functions event (no [httpMethod]) whose action is
    [create_instagram_media], [check_instagram_media_status] or
    [publish_instagram_media], with the required parameters present, calls a
    method that [FacebookService] does not have; the [AttributeError] is
    caught by [lambda_handler], which returns an error response naming the
    missing method, without any request. *)
Theorem instagram_actions_never_succeed chk unmodelled other api (event : dict) w :
  din "httpMethod" event = false ->
  (  (ev_get event "action" JNull = JStr "create_instagram_media" /\
      truthy (py_or (ev_get event "instagram_id" JNull) (ev_get event "page_id" JNull)) = true /\
      truthy (ev_get event "page_access_token" JNull) = true /\
      truthy (py_or (ev_get event "caption" JNull) (ev_get event "message" JNull)) = true)
  \/ (ev_get event "action" JNull = JStr "check_instagram_media_status" /\
      truthy (ev_get event "creation_id" JNull) = true /\
      truthy (ev_get event "page_access_token" JNull) = true)
  \/ (ev_get event "action" JNull = JStr "publish_instagram_media" /\
      truthy (ev_get event "instagram_id" JNull) = true /\
      truthy (ev_get event "creation_id" JNull) = true /\
      truthy (ev_get event "page_access_token" JNull) = true)) ->
  exists name,
    In name ["create_instagram_media"; "check_instagram_media_status"; "publish_instagram_media"] /\
    lambda_handler chk unmodelled other api event w
    = ([], Ok (CreateErrorResponse
                 ("'FacebookService' object has no attribute '" ++ name ++ "'"))).
Proof.
  intros Hstep [(Ha & H1 & H2 & H3) | [(Ha & H1 & H2) | (Ha & H1 & H2 & H3)]];
    unfold lambda_handler, catch_all, try_except; rewrite Hstep;
    unfold handle_step_function_request; rewrite Ha.
  - exists "create_instagram_media". split; [simpl; tauto|].
    cbn - [truthy py_or ev_get]. rewrite H1, H2, H3. reflexivity.
  - exists "check_instagram_media_status". split; [simpl; tauto|].
    cbn - [truthy py_or ev_get]. rewrite H1, H2. reflexivity.
  - exists "publish_instagram_media". split; [simpl; tauto|].
    cbn - [truthy py_or ev_get]. rewrite H1, H2, H3. reflexivity.
Qed.

(* ------------------------------------------------------------------ *)
(** ** Reel publishing and hosted upload *)

(** C5. On a platform other than Instagram, [publish_reel] returns a record
    with status [success] and phase [published] when the finish response is
    [{success: true, post_id}] or [{id, permalink_url}]. *)
Theorem publish_reel_recognises_both_success_shapes page_id page_access_token video_id description
  (p : string) share_to_feed kwargs w d :
  lower p <> "instagram" ->
  (forall rq, w_http w rq = Reply (Some (JObj d))) ->
  (  (dlookup "success" d = Some (JBool true) /\ din "post_id" d = true)
  \/ (din "id" d = true /\ din "permalink_url" d = true)) ->
  exists trace r,
    publish_reel page_id page_access_token video_id description (JStr p) share_to_feed kwargs w
      = (trace, Ok (JObj r)) /\
    dlookup "status" r = Some (JStr "success") /\
    dlookup "phase" r = Some (JStr "published").
Proof.
  intros Hp Hw Hshape.
  apply String.eqb_neq in Hp.
  unfold publish_reel, catch_all, try_except.
  cbn - [lower dlookup din]. rewrite Hp.
  cbn - [dlookup din]. rewrite Hw.
  cbn - [dlookup din].
  destruct Hshape as [[Hs Hpost] | [Hid Hperm]].
  - assert (Hds : din "success" d = true) by (unfold din; rewrite Hs; reflexivity).
    rewrite Hds. cbn - [dlookup din]. rewrite Hs. cbn. eauto.
  - assert (Hid' := Hid). unfold din in Hid'.
    destruct (dlookup "id" d) as [rid|] eqn:Eid; [|discriminate].
    destruct (din "success" d) eqn:Es; cbn - [dlookup din].
    + unfold din in Es. destruct (dlookup "success" d) as [s|] eqn:Es'; [|discriminate].
      cbn - [dlookup din].
      destruct s as [| [|] | | | |]; cbn - [dlookup din]; rewrite ?Hid, ?Eid; cbn; eauto.
    + rewrite Hid. cbn. eauto.
Qed.

(** String lemmas for URL prefixes and hosts. *)
Lemma startswith_app_l a b p : startswith a p = true -> startswith (a ++ b) p = true.
Proof.
  revert a. induction p as [|c p IH]; intros [|d a] H.
  - destruct b; reflexivity.
  - reflexivity.
  - discriminate H.
  - cbn [startswith append] in *. apply andb_prop in H as [H1 H2].
    rewrite H1, (IH a H2). reflexivity.
Qed.

Lemma startswith_self_app p b : startswith (p ++ b) p = true.
Proof.
  induction p as [|c p IH]; [destruct b; reflexivity|].
  cbn [startswith append]. rewrite Ascii.eqb_refl, IH. reflexivity.
Qed.

Lemma startswith_split s p : startswith s p = true -> exists rest, s = p ++ rest.
Proof.
  revert s. induction p as [|c p IH]; intros [|d s] H.
  - exists EmptyString. reflexivity.
  - exists (String d s). reflexivity.
  - discriminate H.
  - cbn [startswith] in H. apply andb_prop in H as [H1 H2]. apply Ascii.eqb_eq in H1. subst.
    destruct (IH s H2) as [rest ->]. exists rest. reflexivity.
Qed.

Lemma contains_app_l a b p : contains a p = true -> contains (a ++ b) p = true.
Proof.
  induction a as [|c a IH]; intros H.
  - destruct p as [|c p]; [destruct b; reflexivity | cbn in H; discriminate H].
  - change (contains (String c (a ++ b)) p = true).
    cbn [contains] in H |- *. apply orb_prop in H as [H|H].
    + apply orb_true_intro. left. exact (startswith_app_l (String c a) b p H).
    + rewrite (IH H). apply orb_true_r.
Qed.

Lemma contains_app_r a b p : contains b p = true -> contains (a ++ b) p = true.
Proof.
  induction a as [|c a IH]; intros H; [exact H|].
  change (contains (String c (a ++ b)) p = true). cbn [contains].
  rewrite (IH H). apply orb_true_r.
Qed.

Lemma lower_app a b : lower (a ++ b) = lower a ++ lower b.
Proof. induction a; simpl; congruence. Qed.

Lemma contains_host_in_netloc pre host post sub :
  lower host = sub ++ "fbcdn.net" ->
  contains (lower (pre ++ host ++ post)) "fbcdn.net" = true.
Proof.
  intros H. rewrite !lower_app, H.
  apply contains_app_r. apply contains_app_l.
  apply contains_app_r. reflexivity.
Qed.

Lemma urlsplit_https_prefix chk rest :
  urlsplit chk ("https://" ++ rest)
  = (p <-? split_netloc chk ("//" ++ remove_chars is_unsafe_url_byte rest) ;;
     let '(netloc, url3) := p in
     let '(url4, fragment) :=
       match split_once "#" url3 with Some (a, b) => (a, b) | None => (url3, "") end in
     let '(path, query) :=
       match split_once "?" url4 with Some (a, b) => (a, b) | None => (url4, "") end in
     Ok ("https", netloc, path, query, fragment)).
Proof. reflexivity. Qed.

Lemma urlparse_https_scheme chk s r :
  startswith s "https://" = true -> urlparse chk s = Ok r -> pr_scheme r = "https".
Proof.
  intros Hs. destruct (startswith_split _ _ Hs) as [rest ->].
  unfold urlparse. rewrite urlsplit_https_prefix.
  destruct (split_netloc _ _) as [[netloc url3]|e]; [|intros H; discriminate H].
  cbn [rbind].
  repeat match goal with
         | |- context [let '(_, _) := ?p in _] => destruct p
         end.
  cbn [rbind]. destruct (_ && _); [destruct (splitparams _)|];
  intros H; injection H as <-; reflexivity.
Qed.

(** C6. On a platform other than Instagram, [upload_hosted_file] with a URL
    whose parsed scheme is not [https], or whose netloc contains a host
    ending (case-insensitively) in [fbcdn.net], returns a record with status
    [error] and phase [upload_hosted_file] and issues no request. *)
Theorem upload_hosted_file_rejects_insecure_or_cdn bracketed_netloc_ok page_id page_access_token
  video_id (file_url p : string) w :
  lower p <> "instagram" ->
  (  (forall r, urlparse bracketed_netloc_ok file_url = Ok r -> pr_scheme r <> "https")
  \/ (exists r pre host post sub,
        urlparse bracketed_netloc_ok file_url = Ok r /\
        pr_netloc r = pre ++ host ++ post /\ lower host = sub ++ "fbcdn.net")) ->
  exists record,
    upload_hosted_file bracketed_netloc_ok page_id page_access_token video_id
      (JStr file_url) (JStr p) w = ([], Ok (JObj record)) /\
    dlookup "status" record = Some (JStr "error") /\
    dlookup "phase" record = Some (JStr "upload_hosted_file").
Proof.
  intros Hp Hurl. apply String.eqb_neq in Hp.
  unfold upload_hosted_file, catch_all, try_except.
  cbn - [lower urlparse contains startswith]. rewrite Hp.
  cbn - [lower urlparse contains startswith].
  destruct (startswith file_url "https://") eqn:Hs; cbn - [lower urlparse contains startswith].
  - destruct (urlparse bracketed_netloc_ok file_url) as [r|e] eqn:Hu;
      cbn - [lower urlparse contains startswith].
    + destruct Hurl as [Hsch | (r' & pre & host & post & sub & Hu' & Hn & Hh)].
      * exfalso. exact (Hsch r eq_refl (urlparse_https_scheme _ _ _ Hs Hu)).
      * injection Hu' as <-. rewrite Hn.
        rewrite (contains_host_in_netloc _ _ _ _ Hh). cbn. eauto.
    + eauto.
  - eauto.
Qed.

(** Reasoning about the values a computation can return. *)
Lemma returns_only_ret {A} (P : A -> Prop) a : P a -> returns_only P (ret a).
Proof. intros H w. exact H. Qed.

Lemma returns_only_raise {A} (P : A -> Prop) e : returns_only P (raise e).
Proof. intros w. exact I. Qed.

Lemma returns_only_bind {A B} (P : B -> Prop) (m : M A) (k : A -> M B) :
  (forall a, returns_only P (k a)) -> returns_only P (bind m k).
Proof.
  intros H w. unfold bind. destruct (m w) as [t1 [a|e]]; [|exact I].
  specialize (H a w). destruct (k a w) as [t2 r2]. exact H.
Qed.

Lemma returns_only_catch_all {A} (P : A -> Prop) (m : M A) h :
  returns_only P m -> (forall e, returns_only P (h e)) -> returns_only P (catch_all m h).
Proof.
  intros Hm Hh w. unfold catch_all, try_except. specialize (Hm w).
  destruct (m w) as [t1 [a|e]]; [exact Hm|].
  specialize (Hh e w). destruct (h e w) as [t2 r2]. exact Hh.
Qed.

Lemma never_raises_catch_all {A} (m : M A) h :
  (forall e, never_raises (h e)) -> never_raises (catch_all m h).
Proof.
  intros Hh w. unfold catch_all, try_except.
  destruct (m w) as [t1 [a|e]]; [simpl; eauto|].
  destruct (Hh e w) as [a Ha]. destruct (h e w) as [t2 r2]. simpl in *. eauto.
Qed.

Lemma exception_record_never_raises platform phase e :
  never_raises (exception_record platform phase e).
Proof. intros w. eexists. reflexivity. Qed.

Lemma returns_only_exception_record (P : json -> Prop) platform phase e :
  (forall tb ts, P (JObj [("status", JStr "error"); ("platform", platform);
             ("error_details", JStr (exc_str e)); ("traceback", tb);
             ("phase", JStr phase); ("timestamp", ts)])) ->
  returns_only P (exception_record platform phase e).
Proof. intros H w. apply H. Qed.

Ltac returns_only_tac :=
  repeat match goal with
  | |- returns_only _ (catch_all _ _) => apply returns_only_catch_all; [|intro]
  | |- returns_only _ (exception_record _ _ _) => apply returns_only_exception_record; intros
  | |- returns_only _ (bind _ _) => apply returns_only_bind; intro
  | |- returns_only _ (raise _) => apply returns_only_raise
  | |- returns_only _ (ret _) => apply returns_only_ret
  | |- returns_only _ (if ?b then _ else _) => destruct b
  | |- returns_only _ (match ?x with _ => _ end) => destruct x
  | |- returns_only _ (let '(_, _) := ?p in _) => destruct p
  end.


Lemma ok_and {A} (P : A -> Prop) (m : M A) w :
  never_raises m -> returns_only P m -> exists tr a, m w = (tr, Ok a) /\ P a.
Proof.
  intros Hn Hr. destruct (Hn w) as [a Ha]. specialize (Hr w).
  destruct (m w) as [tr r]. simpl in *. subst. eauto.
Qed.





Ltac echoes_id_tac :=
  eexists; split; [reflexivity | cbn; split; intros ? Hv; congruence].

(** C9 (amended). [upload_hosted_file], [check_reel_upload_status] and
    [publish_reel] never return a [video_id] or [creation_id] other than the
    id they were given; some of their records (the Instagram upload skip,
    the records of caught exceptions, ...) carry no id at all. *)
Theorem session_id_echoed bracketed_netloc_ok page_id page_access_token video_id file_url description platform
    share_to_feed kwargs :
  returns_only (echoes_id video_id)
    (upload_hosted_file bracketed_netloc_ok page_id page_access_token video_id file_url platform) /\
  returns_only (echoes_id video_id)
    (check_reel_upload_status page_id page_access_token video_id platform) /\
  returns_only (echoes_id video_id)
    (publish_reel page_id page_access_token video_id description platform share_to_feed kwargs).
Proof.
  split; [|split].
  - unfold upload_hosted_file. returns_only_tac. all: echoes_id_tac.
  - unfold check_reel_upload_status. returns_only_tac. all: echoes_id_tac.
  - unfold publish_reel. returns_only_tac. all: echoes_id_tac.
Qed.


(** On Instagram, [upload_hosted_file] returns a record with neither
    [video_id] nor [creation_id]. *)
Lemma session_id_counterexample :
  exists d,
    upload_hosted_file (fun _ => true) (JStr "1234") (JStr "tok") (JStr "987")
      (JStr "https://example.com/v.mp4") (JStr "instagram") (sample_world (Unreachable "down"))
    = ([], Ok (JObj d)) /\
    dlookup "video_id" d = None /\ dlookup "creation_id" d = None.
Proof. eexists. split; [reflexivity | split; reflexivity]. Qed.

(* ------------------------------------------------------------------ *)
(** ** Failure handling of the Graph client *)
Lemma post_to_facebook_page_result page_id tok message mediaType mm_url w :
  exists rq, post_to_facebook_page page_id tok message mediaType mm_url w
             = ([rq], outcome_json (w_http w rq)).
Proof.
  unfold post_to_facebook_page.
  match goal with |- context [let '(_, _) := ?p in _] => destruct p as [url params] end.
  exists (mkRequest POST url params []).
  unfold bind, requests_post, http.
  destruct (w_http w (mkRequest POST url params [])) as [[j|]|m]; reflexivity.
Qed.

Lemma get_page_feed_result page_id tok limit fields w :
  exists rq, get_page_feed page_id tok limit fields w = ([rq], outcome_json (w_http w rq)).
Proof.
  unfold get_page_feed, bind, requests_get, http.
  match goal with |- context [w_http w ?rq] =>
    exists rq; destruct (w_http w rq) as [[j|]|m] end; reflexivity.
Qed.

Ltac tagged_tac := do 3 eexists; split; [reflexivity | split; reflexivity].

Lemma reel_operations_tagged chk page_id tok description video_url video_id file_url platform
    share_to_feed kwargs :
  returns_only tagged (init_reel_upload page_id tok description video_url platform) /\
  returns_only tagged (upload_hosted_file chk page_id tok video_id file_url platform) /\
  returns_only tagged (check_reel_upload_status page_id tok video_id platform) /\
  returns_only tagged (publish_reel page_id tok video_id description platform share_to_feed kwargs).
Proof.
  split; [|split; [|split]].
  - unfold init_reel_upload. returns_only_tac. all: tagged_tac.
  - unfold upload_hosted_file. returns_only_tac. all: tagged_tac.
  - unfold check_reel_upload_status. returns_only_tac. all: tagged_tac.
  - unfold publish_reel. returns_only_tac. all: tagged_tac.
Qed.

Lemma reel_operations_never_raise chk page_id tok description video_url video_id file_url platform
    share_to_feed kwargs :
  never_raises (init_reel_upload page_id tok description video_url platform) /\
  never_raises (upload_hosted_file chk page_id tok video_id file_url platform) /\
  never_raises (check_reel_upload_status page_id tok video_id platform) /\
  never_raises (publish_reel page_id tok video_id description platform share_to_feed kwargs).
Proof.
  repeat split; apply never_raises_catch_all; apply exception_record_never_raises.
Qed.

(** C1 (amended). [post_to_facebook_page] and [get_page_feed] catch nothing:
    they make one request and return its decoded body unchanged, or raise
    the transport exception or [JSONDecodeError].  The reel operations
    [init_reel_upload], [upload_hosted_file], [check_reel_upload_status] and
    [publish_reel] never raise: in every world they return a dict with a
    string [status] and a [timestamp]. *)
Theorem graph_client_failure_handling chk page_id tok message mediaType mm_url limit fields
    description video_url video_id file_url platform share_to_feed kwargs :
  (forall w, exists rq, post_to_facebook_page page_id tok message mediaType mm_url w
                        = ([rq], outcome_json (w_http w rq))) /\
  (forall w, exists rq, get_page_feed page_id tok limit fields w
                        = ([rq], outcome_json (w_http w rq))) /\
  (forall w, exists tr r,
     init_reel_upload page_id tok description video_url platform w = (tr, Ok r) /\ tagged r) /\
  (forall w, exists tr r,
     upload_hosted_file chk page_id tok video_id file_url platform w = (tr, Ok r) /\ tagged r) /\
  (forall w, exists tr r,
     check_reel_upload_status page_id tok video_id platform w = (tr, Ok r) /\ tagged r) /\
  (forall w, exists tr r,
     publish_reel page_id tok video_id description platform share_to_feed kwargs w = (tr, Ok r)
     /\ tagged r).
Proof.
  destruct (reel_operations_tagged chk page_id tok description video_url video_id file_url platform
              share_to_feed kwargs) as (T1 & T2 & T3 & T4).
  destruct (reel_operations_never_raise chk page_id tok description video_url video_id file_url
              platform share_to_feed kwargs) as (N1 & N2 & N3 & N4).
  split; [intro w; apply post_to_facebook_page_result|].
  split; [intro w; apply get_page_feed_result|].
  repeat split; intro w; apply ok_and; assumption.
Qed.

(** [post_to_facebook_page] lets a connection error escape as a raised
    [RequestException]. *)
Lemma post_unreachable_counterexample :
  post_to_facebook_page (JStr "1234") (JStr "tok") (JStr "hello") JNull JNull
    (sample_world (Unreachable "Connection refused"))
  = ([mkRequest POST "https://graph.facebook.com/v18.0/1234/feed"
        [("message", JStr "hello"); ("access_token", JStr "tok")] []],
     Exc (RequestException "Connection refused")).
Proof. reflexivity. Qed.

(* ------------------------------------------------------------------ *)
(** ** Webhook normaliser *)

(** [_get_comment_thread_context] returns a context whenever each fetch
    fails or gives a readable object; failed fetches leave their fields at
    the defaults. *)
Lemma thread_context_total post_id comment_id parent_id top tok w :
  fetch_ok_or_failed (w_http w (post_content_request post_id tok)) ->
  fetch_ok_or_failed (w_http w (thread_request post_id parent_id top tok)) ->
  exists tr pc ct,
    _get_comment_thread_context post_id comment_id parent_id top tok w
      = (tr, Ok (thread_context_json pc ct (if top then "top_level" else "reply"))) /\
    (fetch_failed (w_http w (post_content_request post_id tok)) = true ->
       pc = JNull /\ ct = JArr []) /\
    (fetch_failed (w_http w (thread_request post_id parent_id top tok)) = true -> ct = JArr []).
Proof.
  intros H1 H2.
  unfold _get_comment_thread_context, catch_request, try_except, bind, http, lift, ret.
  cbn -[post_content_request sibling_comments_request parent_comment_request].
  destruct H1 as [F1 | (d1 & E1 & _)].
  - destruct (w_http w (post_content_request post_id tok)) as [[j|]|m]; try discriminate F1;
      cbn; do 3 eexists; (split; [reflexivity | split; [auto | intros _; reflexivity]]).
  - rewrite E1. cbn -[sibling_comments_request parent_comment_request].
    unfold thread_request in *.
    destruct top; destruct H2 as [F2 | (d2 & E2 & Hc)];
      cbn -[sibling_comments_request parent_comment_request].
    + destruct (w_http w (sibling_comments_request post_id tok)) as [[j|]|m];
        (try discriminate F2); cbn; do 3 eexists; (split; [reflexivity | split; [discriminate | auto]]).
    + rewrite E2. cbn. do 3 eexists; split; [reflexivity | split; discriminate].
    + destruct (w_http w (parent_comment_request parent_id tok)) as [[j|]|m];
        (try discriminate F2); cbn; do 3 eexists; (split; [reflexivity | split; [discriminate | auto]]).
    + rewrite E2. cbn.
      destruct (dlookup "comments" d2) as [c|] eqn:Ec.
      * destruct (Hc c eq_refl) as [e ->]. cbn.
        do 3 eexists; split; [reflexivity | split; discriminate].
      * cbn. do 3 eexists; split; [reflexivity | split; discriminate].
Qed.

(** C4. For a comment-add change whose commenter is not the receiving page,
    when each thread-context fetch either fails (the request raises or the
    body is not JSON) or returns a readable object, and the page-owner
    request answers, [_process_feed_event] emits the event (a non-empty
    dict, so [process_webhook_event] keeps it); a failed post fetch leaves
    [post_content] None and [comment_thread] empty, a failed second fetch
    leaves [comment_thread] empty. *)
Theorem comment_event_survives_thread_failures page_id (v f : dict) owner w :
  dlookup "item" v = Some (JStr "comment") ->
  dlookup "verb" v = Some (JStr "add") ->
  dlookup "from" v = Some (JObj f) ->
  py_eqb (dget "id" f) page_id = false ->
  (forall p, dlookup "post" v = Some p -> exists d, p = JObj d) ->
  w_http w (page_data_request page_id (stored_token w page_id)) = Reply (Some owner) ->
  let tok := stored_token w page_id in
  let top := py_eqb (dget "parent_id" v) (dget "post_id" v) in
  fetch_ok_or_failed (w_http w (post_content_request (dget "post_id" v) tok)) ->
  fetch_ok_or_failed (w_http w (thread_request (dget "post_id" v) (dget "parent_id" v) top tok)) ->
  exists tr ev pc ct,
    _process_feed_event (JObj v) page_id w = (tr, Ok (JObj ev)) /\
    truthy (JObj ev) = true /\
    dlookup "thread_context" ev
      = Some (thread_context_json pc ct (if top then "top_level" else "reply")) /\
    (fetch_failed (w_http w (post_content_request (dget "post_id" v) tok)) = true ->
       pc = JNull /\ ct = JArr []) /\
    (fetch_failed (w_http w (thread_request (dget "post_id" v) (dget "parent_id" v) top tok))
       = true -> ct = JArr []).
Proof.
  intros Hi Hv Hf Hc Hp Ho tok top Ht1 Ht2.
  destruct (thread_context_total (dget "post_id" v) (dget "comment_id" v) (dget "parent_id" v)
              top tok w Ht1 Ht2) as (tr & pc & ct & Etc & F1 & F2).
  unfold tok, top, dget, stored_token in *.
  unfold _process_feed_event, bind, lift, ret, _get_stored_page_token, post_field.
  cbn -[_get_comment_thread_context get_page_data].
  rewrite Hi, Hv, Hf. cbn -[_get_comment_thread_context get_page_data].
  rewrite Hc.  cbn -[_get_comment_thread_context get_page_data].
  rewrite Etc.
  unfold get_page_data, bind, http, response_json, ret. rewrite Ho.
  destruct (dlookup "post" v) as [p|] eqn:Ep.
  - destruct (Hp p eq_refl) as [d ->]. cbn.
    do 4 eexists. split; [reflexivity|]. split; [reflexivity|].
    split; [reflexivity|]. split; assumption.
  - cbn.
    do 4 eexists. split; [reflexivity|]. split; [reflexivity|].
    split; [reflexivity|]. split; assumption.
Qed.

Section SelfComment.

Variables (page_id : json) (v f cd : dict).
Hypothesis Hitem : dlookup "item" v = Some (JStr "comment").
Hypothesis Hverb : dlookup "verb" v = Some (JStr "add").
Hypothesis Hfrom : dlookup "from" v = Some (JObj f).
Hypothesis Hself : py_eqb (dget "id" f) page_id = true.
Hypothesis Hvalue : dlookup "value" cd = Some (JObj v).

Lemma self_comment_feed_event w : _process_feed_event (JObj v) page_id w = ([], Ok JNull).
Proof.
  unfold dget in Hself.
  unfold _process_feed_event, bind, lift, ret. cbn.
  rewrite Hitem, Hverb. cbn. rewrite Hfrom. cbn. rewrite Hself. reflexivity.
Qed.

Lemma process_changes_drop_self post pre acc w :
  process_changes page_id (pre ++ JObj cd :: post) acc w
  = process_changes page_id (pre ++ post) acc w.
Proof.
  revert acc w. induction pre as [|c pre IH]; intros acc w.
  - cbn [app process_changes]. unfold bind at 1 2 3, lift. cbn -[_process_feed_event process_changes].
    rewrite Hvalue, self_comment_feed_event. cbn -[process_changes].
    destruct (process_changes _ _ _ _); reflexivity.
  - cbn [app process_changes]. unfold bind.
    destruct (lift (py_get c "field" JNull) w) as [t1 [a|e]]; [|reflexivity].
    destruct (lift (py_get c "value" (JObj [])) w) as [t2 [b|e]]; [|reflexivity].
    destruct (_process_feed_event b page_id w) as [t3 [ev|e]]; [|reflexivity].
    rewrite IH. reflexivity.
Qed.

End SelfComment.

Lemma process_entries_drop_self page_id v f cd ed1 ed2 pre post es2 :
  dlookup "item" v = Some (JStr "comment") ->
  dlookup "verb" v = Some (JStr "add") ->
  dlookup "from" v = Some (JObj f) ->
  py_eqb (dget "id" f) page_id = true ->
  dlookup "value" cd = Some (JObj v) ->
  dlookup "id" ed1 = Some page_id -> dlookup "id" ed2 = Some page_id ->
  dlookup "changes" ed1 = Some (JArr (pre ++ JObj cd :: post)) ->
  dlookup "changes" ed2 = Some (JArr (pre ++ post)) ->
  forall es1 acc w,
    process_entries (es1 ++ JObj ed1 :: es2) acc w = process_entries (es1 ++ JObj ed2 :: es2) acc w.
Proof.
  intros Hi Hv Hf Hs Hc Hid1 Hid2 Hch1 Hch2 es1.
  induction es1 as [|e es1 IH]; intros acc w.
  - cbn [app process_entries]. unfold bind at 1 2 3 5 6 7, lift.
    cbn -[process_changes process_entries].
    rewrite Hid1, Hid2, Hch1, Hch2. cbn -[process_changes process_entries].
    unfold bind.
    rewrite (process_changes_drop_self page_id v f cd Hi Hv Hf Hs Hc). reflexivity.
  - cbn [app process_entries]. unfold bind.
    destruct (lift (py_get e "id" JNull) w) as [t1 [a|ex]]; [|reflexivity].
    destruct (lift (py_get e "changes" (JArr [])) w) as [t2 [b|ex]]; [|reflexivity].
    destruct (lift (py_iter b) w) as [t3 [chs|ex]]; [|reflexivity].
    destruct (process_changes a chs acc w) as [t4 [acc'|ex]]; [|reflexivity].
    rewrite IH. reflexivity.
Qed.

(** C3. A comment-add change whose commenter id equals the id of its entry
    (the receiving page) contributes nothing: removing it from the changes
    leaves [process_webhook_event] unchanged, events and requests alike. *)
Theorem self_comment_emits_nothing page_id v f cd ed1 ed2 pre post es1 es2 pd1 pd2 w :
  dlookup "item" v = Some (JStr "comment") ->
  dlookup "verb" v = Some (JStr "add") ->
  dlookup "from" v = Some (JObj f) ->
  py_eqb (dget "id" f) page_id = true ->
  dlookup "value" cd = Some (JObj v) ->
  dlookup "id" ed1 = Some page_id -> dlookup "id" ed2 = Some page_id ->
  dlookup "changes" ed1 = Some (JArr (pre ++ JObj cd :: post)) ->
  dlookup "changes" ed2 = Some (JArr (pre ++ post)) ->
  dlookup "object" pd1 = Some (JStr "page") -> dlookup "object" pd2 = Some (JStr "page") ->
  dlookup "entry" pd1 = Some (JArr (es1 ++ JObj ed1 :: es2)) ->
  dlookup "entry" pd2 = Some (JArr (es1 ++ JObj ed2 :: es2)) ->
  process_webhook_event (JObj pd1) w = process_webhook_event (JObj pd2) w.
Proof.
  intros Hi Hv Hf Hs Hc Hid1 Hid2 Hch1 Hch2 Ho1 Ho2 He1 He2.
  unfold process_webhook_event, bind, lift, ret, py_in, din, py_index, py_get.
  rewrite Ho1, Ho2. cbn -[process_entries].
  rewrite He1, He2. cbn -[process_entries].
  rewrite (process_entries_drop_self page_id v f cd ed1 ed2 pre post es2
             Hi Hv Hf Hs Hc Hid1 Hid2 Hch1 Hch2).
  reflexivity.
Qed.

Lemma instagram_actions_never_succeed_witness :
  exists name,
    In name ["create_instagram_media"; "check_instagram_media_status"; "publish_instagram_media"] /\
    lambda_handler (fun _ => true) no_method no_action no_api instagram_create_event
      (sample_world (Unreachable "down"))
    = ([], Ok (CreateErrorResponse
                 ("'FacebookService' object has no attribute '" ++ name ++ "'"))).
Proof.
  apply instagram_actions_never_succeed; [reflexivity|].
  left. split; [|split; [|split]]; reflexivity.
Defined.


Lemma publish_reel_recognises_both_success_shapes_witness :
  exists trace r,
    publish_reel (JStr "1234") (JStr "tok") (JStr "987") (JStr "my reel") (JStr "facebook")
      (JBool true) [] (sample_world (Reply (Some (JObj [("success", JBool true);
                                                         ("post_id", JStr "555")]))))
      = (trace, Ok (JObj r)) /\
    dlookup "status" r = Some (JStr "success") /\
    dlookup "phase" r = Some (JStr "published").
Proof.
  apply (publish_reel_recognises_both_success_shapes _ _ _ _ "facebook" _ _ _
           [("success", JBool true); ("post_id", JStr "555")]).
  - intro H. vm_compute in H. discriminate H.
  - intro rq. reflexivity.
  - left. split; reflexivity.
Defined.

Lemma upload_hosted_file_rejects_insecure_or_cdn_witness :
  exists record,
    upload_hosted_file (fun _ => true) (JStr "1234") (JStr "tok") (JStr "987")
      (JStr "https://video.xx.fbcdn.net/v/clip.mp4") (JStr "facebook") (sample_world (Reply None))
    = ([], Ok (JObj record)) /\
    dlookup "status" record = Some (JStr "error") /\
    dlookup "phase" record = Some (JStr "upload_hosted_file").
Proof.
  apply upload_hosted_file_rejects_insecure_or_cdn.
  - intro H. vm_compute in H. discriminate H.
  - right. eexists. exists "video.xx.", "fbcdn.net", "", "".
    split; [reflexivity | split; reflexivity].
Defined.

Lemma self_comment_emits_nothing_witness :
  process_webhook_event
    (JObj (sample_payload [JObj (sample_change "222"); JObj (sample_change "111")]))
    (sample_world (Unreachable "down"))
  = process_webhook_event (JObj (sample_payload [JObj (sample_change "222")]))
      (sample_world (Unreachable "down")).
Proof.
  apply (self_comment_emits_nothing (JStr "111") (sample_comment "111") (sample_from "111")
           (sample_change "111")
           (sample_entry [JObj (sample_change "222"); JObj (sample_change "111")])
           (sample_entry [JObj (sample_change "222")]) [JObj (sample_change "222")] [] [] []);
    reflexivity.
Defined.

Lemma comment_event_survives_thread_failures_witness :
  exists tr ev pc ct,
    _process_feed_event (JObj (sample_comment "222")) (JStr "111") owner_only_world
      = (tr, Ok (JObj ev)) /\
    truthy (JObj ev) = true /\
    dlookup "thread_context" ev = Some (thread_context_json pc ct "reply") /\
    (true = true -> pc = JNull /\ ct = JArr []) /\
    (true = true -> ct = JArr []).
Proof.
  refine (comment_event_survives_thread_failures (JStr "111") (sample_comment "222")
            (sample_from "222") _ owner_only_world eq_refl eq_refl eq_refl eq_refl _ eq_refl
            (or_introl eq_refl) (or_introl eq_refl)).
  intros p Hp. discriminate Hp.
Defined.

(* ================================================================== *)
(** * Further properties of the service and the dispatcher *)
(* ------------------------------------------------------------------ *)
(** ** Messenger webhooks *)

(** A payload whose [object] is absent or not [page] is rejected with the same [ValueError] by [process_webhook_event] (after no request) and by [process_messaging_webhook]. *)
Theorem webhooks_reject_non_page_payload (d : dict) :
  (forall o, dlookup "object" d = Some o -> py_eqb o (JStr "page") = false) ->
  (forall w, process_webhook_event (JObj d) w
             = ([], Exc (ValueError "Received webhook is not for a page"))) /\
  process_messaging_webhook (JObj d) = Exc (ValueError "Received webhook is not for a page").
Proof.
  intros H. unfold process_webhook_event, process_messaging_webhook.
  cbn -[dlookup py_eqb]. unfold din.
  destruct (dlookup "object" d) as [o|] eqn:E; cbn -[dlookup py_eqb].
  - rewrite (H o eq_refl). split; reflexivity.
  - split; reflexivity.
Qed.

Ltac event_cases d Hok :=
  unfold din in *;
  repeat match type of Hok with
  | context [dlookup ?k d] =>
      let E := fresh "E" in
      destruct (dlookup k d) as [[]|] eqn:E; cbn -[dlookup dupdate] in *; try discriminate
  end.

Lemma messaging_event_info_ok pid ev :
  messaging_event_ok ev = true ->
  exists i, messaging_event_info pid ev = Ok (JObj i) /\ dlookup "page_id" i = Some pid.
Proof.
  destruct ev as [| | | | |d]; try discriminate. cbn. unfold obj_or_absent.
  unfold messaging_event_info. cbn -[dlookup dupdate].
  intros Hok. event_cases d Hok; eexists; split; reflexivity.
Qed.

Lemma webhooks_reject_non_page_payload_witness :
  (forall o, dlookup "object" [("object", JStr "user"); ("entry", JArr [])] = Some o ->
             py_eqb o (JStr "page") = false) /\
  (forall w, process_webhook_event (JObj [("object", JStr "user"); ("entry", JArr [])]) w
             = ([], Exc (ValueError "Received webhook is not for a page"))) /\
  process_messaging_webhook (JObj [("object", JStr "user"); ("entry", JArr [])])
  = Exc (ValueError "Received webhook is not for a page").
Proof.
  assert (H : forall o, dlookup "object" [("object", JStr "user"); ("entry", JArr [])] = Some o ->
                        py_eqb o (JStr "page") = false)
    by (intros o E; injection E as <-; reflexivity).
  split; [exact H | apply webhooks_reject_non_page_payload; exact H].
Defined.

Lemma process_messaging_events_ok pid evs acc :
  forallb messaging_event_ok evs = true ->
  exists out, process_messaging_events pid evs acc = Ok (acc ++ out)%list /\
              map Ok out = map (messaging_event_info pid) evs /\
              map page_id_of out = map (fun _ => Some pid) evs.
Proof.
  revert acc. induction evs as [|ev evs IH]; intros acc H.
  - exists []. rewrite app_nil_r. repeat split; reflexivity.
  - cbn in H. apply andb_true_iff in H as [Hev Hevs].
    destruct (messaging_event_info_ok pid ev Hev) as [i [Hi Hp]].
    destruct (IH (acc ++ [JObj i])%list Hevs) as [out [Ho [Hr Hm]]].
    exists (JObj i :: out). cbn. rewrite Hi. cbn. rewrite Ho, <- app_assoc.
    split; [reflexivity|]. cbn. rewrite Hr. split; [reflexivity|]. rewrite Hp, Hm. reflexivity.
Qed.

Lemma process_messaging_entries_ok eds acc :
  forallb messaging_entry_ok eds = true ->
  exists out, process_messaging_entries (map JObj eds) acc = Ok (acc ++ out)%list /\
    map Ok out = flat_map (fun ed => map (messaging_event_info (dget "id" ed)) (entry_events ed)) eds /\
    map page_id_of out = flat_map (fun ed => map (fun _ => Some (dget "id" ed)) (entry_events ed)) eds.
Proof.
  revert acc. induction eds as [|ed eds IH]; intros acc H.
  - exists []. rewrite app_nil_r. repeat split; reflexivity.
  - cbn in H. apply andb_true_iff in H as [Hed Heds].
    assert (Hev : py_get (JObj ed) "messaging" (JArr []) = Ok (JArr (entry_events ed))
                  /\ forallb messaging_event_ok (entry_events ed) = true).
    { unfold messaging_entry_ok in Hed. unfold entry_events. cbn.
      destruct (dlookup "messaging" ed) as [[]|]; try discriminate; auto. }
    destruct Hev as [Hm Hok].
    destruct (process_messaging_events_ok (dget "id" ed) (entry_events ed) acc Hok)
      as [o1 [H1 [R1 M1]]].
    destruct (IH (acc ++ o1)%list Heds) as [o2 [H2 [R2 M2]]].
    exists (o1 ++ o2)%list. cbn [map process_messaging_entries].
    rewrite Hm. cbn. unfold dget in H1. rewrite H1. cbn. rewrite H2, app_assoc.
    split; [reflexivity|]. rewrite !map_app, R1, R2, M1, M2. split; reflexivity.
Qed.

(** For a page payload with well-formed entries, [process_messaging_webhook] returns one record per messaging event, entry after entry and, within an entry, event after event: the k-th record is the [event_info] built from the k-th event with the id of its entry as [page_id]. *)
Theorem process_messaging_webhook_one_event_each (d : dict) (eds : list dict) :
  dlookup "object" d = Some (JStr "page") ->
  dlookup "entry" d = Some (JArr (map JObj eds)) ->
  forallb messaging_entry_ok eds = true ->
  exists out, process_messaging_webhook (JObj d) = Ok out /\
    map Ok out = flat_map (fun ed => map (messaging_event_info (dget "id" ed)) (entry_events ed)) eds /\
    map page_id_of out = flat_map (fun ed => map (fun _ => Some (dget "id" ed)) (entry_events ed)) eds.
Proof.
  intros Ho He Hok. destruct (process_messaging_entries_ok eds [] Hok) as [out [H1 H2]].
  exists out. split; [|exact H2].
  unfold process_messaging_webhook. cbn -[dlookup py_eqb process_messaging_entries].
  unfold din. rewrite Ho. cbn -[dlookup process_messaging_entries]. rewrite He.
  cbn -[process_messaging_entries]. exact H1.
Qed.

Lemma process_messaging_webhook_one_event_each_witness :
  let eds := [[("id", JStr "111"); ("time", JNum 1700000000);
               ("messaging", JArr [JObj [("sender", JObj [("id", JStr "u1")]);
                                         ("message", JObj [("mid", JStr "m1")])];
                                   JObj [("read", JObj [("watermark", JNum 5)])]])];
              [("id", JStr "222")]] in
  exists out,
    process_messaging_webhook (JObj [("object", JStr "page"); ("entry", JArr (map JObj eds))]) = Ok out /\
    map Ok out = flat_map (fun ed => map (messaging_event_info (dget "id" ed)) (entry_events ed)) eds /\
    map page_id_of out = flat_map (fun ed => map (fun _ => Some (dget "id" ed)) (entry_events ed)) eds.
Proof.
  intros eds. apply (process_messaging_webhook_one_event_each _ eds); reflexivity.
Defined.



(* ------------------------------------------------------------------ *)
(** ** Comment replies *)

Lemma substring_0_all n s : String.length s <= n -> substring 0 n s = s.
Proof.
  revert n. induction s as [|c s IH]; intros n H; destruct n; cbn in *; try lia; auto.
  rewrite IH by lia. reflexivity.
Qed.

Lemma substring_length n m s : n + m <= String.length s -> String.length (substring n m s) = m.
Proof.
  revert n m. induction s as [|c s IH]; intros n m H; cbn in *.
  - destruct n, m; cbn in *; lia.
  - destruct n as [|n].
    + destruct m as [|m]; cbn; [reflexivity|]. rewrite IH by lia. reflexivity.
    + apply IH. lia.
Qed.

Lemma str_app_length (a b : string) : String.length (a ++ b) = String.length a + String.length b.
Proof. induction a as [|c a IH]; cbn; [reflexivity|]. rewrite IH. reflexivity. Qed.

Lemma reply_to_comment_string_token cid s text commenter w :
  exists r,
    reply_to_comment cid (JStr s) text commenter w
      = ([reply_request cid (JStr s) text commenter], Ok (JObj r)) /\
    dlookup "page_access_token" r
      = Some (JStr (substring 0 15 s ++ "..." ++ substring (String.length s - 5) 5 s)) /\
    dlookup "mentioned_user" r = Some (if truthy commenter then commenter else JNull) /\
    (dlookup "status" r = Some (JStr "success") <->
     exists d, w_http w (reply_request cid (JStr s) text commenter) = Reply (Some (JObj d)) /\
               din "id" d = true).
Proof.
  unfold reply_to_comment, reply_request, catch_all, try_except, bind, lift, ret,
    requests_post, http, now_iso, response_json, raise.
  cbn -[w_http din contains existsb py_eqb substring].
  match goal with |- context [w_http w ?rq] => destruct (w_http w rq) as [[j|]|m] end;
    cbn -[din contains existsb py_eqb substring].
  - destruct j as [| | | |xs|d]; cbn -[din contains existsb py_eqb substring];
    try (eexists; split; [reflexivity|]; split; [reflexivity|]; split; [reflexivity|];
         split; [discriminate | intros [d' [Hd _]]; discriminate]).
    + destruct (contains s0 "id");
      (eexists; split; [reflexivity|]; split; [reflexivity|]; split; [reflexivity|];
       split; [discriminate | intros [d' [Hd _]]; discriminate]).
    + destruct (existsb _ xs);
      (eexists; split; [reflexivity|]; split; [reflexivity|]; split; [reflexivity|];
       split; [discriminate | intros [d' [Hd _]]; discriminate]).
    + destruct (din "id" d) eqn:E.
      * eexists; split; [reflexivity|]; split; [reflexivity|]; split; [reflexivity|].
        split; [intros _; eauto | reflexivity].
      * eexists; split; [reflexivity|]; split; [reflexivity|]; split; [reflexivity|].
        split; [discriminate | intros [d' [Hd Hi]]; injection Hd as <-; congruence].
  - eexists; split; [reflexivity|]; split; [reflexivity|]; split; [reflexivity|];
      split; [discriminate | intros [d' [Hd _]]; discriminate].
  - eexists; split; [reflexivity|]; split; [reflexivity|]; split; [reflexivity|];
      split; [discriminate | intros [d' [Hd _]]; discriminate].
Qed.

(** With a string token, [reply_to_comment] makes exactly one POST, never raises, echoes the commenter (or [None]) and reports success exactly when the reply is a dict with an [id]. *)
Theorem reply_to_comment_posts_once cid s text commenter w :
  exists r,
    reply_to_comment cid (JStr s) text commenter w
      = ([reply_request cid (JStr s) text commenter], Ok (JObj r)) /\
    dlookup "mentioned_user" r = Some (if truthy commenter then commenter else JNull) /\
    (dlookup "status" r = Some (JStr "success") <->
     exists d, w_http w (reply_request cid (JStr s) text commenter) = Reply (Some (JObj d)) /\
               din "id" d = true).
Proof.
  destruct (reply_to_comment_string_token cid s text commenter w) as [r [H1 [_ H2]]].
  eauto.
Qed.

(** The token [reply_to_comment] reports is masked as
    [token[:15] + "..." + token[-5:]] ([substring 0 15] and the last five
    characters, [substring (length - 5) 5]).  So a token of at most 15
    characters is kept whole as a prefix, and one of at least 20 characters
    becomes 23 characters long. *)
Theorem reply_to_comment_token_mask cid s text commenter w :
  exists tr r m,
    reply_to_comment cid (JStr s) text commenter w = (tr, Ok (JObj r)) /\
    dlookup "page_access_token" r = Some (JStr m) /\
    m = substring 0 15 s ++ "..." ++ substring (String.length s - 5) 5 s /\
    (String.length s <= 15 -> exists suffix, m = s ++ suffix) /\
    (20 <= String.length s -> String.length m = 23).
Proof.
  destruct (reply_to_comment_string_token cid s text commenter w) as [r [H1 [H2 _]]].
  do 3 eexists. split; [exact H1|]. split; [exact H2|]. split; [reflexivity|]. split.
  - intros Hl. rewrite substring_0_all by exact Hl. eauto.
  - intros Hl. rewrite !str_app_length, !substring_length by lia. reflexivity.
Qed.


(** A token that is not a string makes [reply_to_comment] raise from its logging, after the POST was made. *)
Theorem reply_to_comment_non_string_token_raises cid tok text commenter w :
  (forall s, tok <> JStr s) ->
  exists e, reply_to_comment cid tok text commenter w
            = ([reply_request cid tok text commenter], Exc e).
Proof.
  intros Hs.
  unfold reply_to_comment, reply_request, catch_all, try_except, bind, lift, ret,
    requests_post, http, now_iso, response_json, raise.
  cbn -[w_http din contains existsb py_eqb].
  destruct tok as [| | |s| |]; [| | |exfalso; exact (Hs s eq_refl)| |];
  match goal with |- context [w_http w ?rq] => destruct (w_http w rq) as [[j|]|m] end;
  cbn -[din contains existsb py_eqb];
  try (eexists; reflexivity);
  destruct j; cbn -[din contains existsb py_eqb];
  try (eexists; reflexivity);
  match goal with
  | |- context [if ?b then _ else _] => destruct b; eexists; reflexivity
  end.
Qed.

Lemma reply_to_comment_non_string_token_raises_witness :
  (forall s, JNum 42 <> JStr s) /\
  exists e, reply_to_comment (JStr "p1_c2") (JNum 42) (JStr "Thanks!") JNull
              (sample_world (Reply (Some (JObj [("id", JStr "c9")]))))
            = ([reply_request (JStr "p1_c2") (JNum 42) (JStr "Thanks!") JNull], Exc e).
Proof.
  assert (H : forall s, JNum 42 <> JStr s) by discriminate.
  split; [exact H | apply reply_to_comment_non_string_token_raises; exact H].
Defined.

(* ------------------------------------------------------------------ *)
(** ** Messenger, profiles and subscriptions *)

Ltac returns_only_beta_tac :=
  repeat (cbv beta; match goal with
  | |- returns_only _ (catch_all _ _) => apply returns_only_catch_all; [|intro]
  | |- returns_only _ (bind _ _) => apply returns_only_bind; intro
  | |- returns_only _ (raise _) => apply returns_only_raise
  | |- returns_only _ (ret _) => apply returns_only_ret
  | |- returns_only _ (if ?b then _ else _) => destruct b
  | |- returns_only _ (match ?x with _ => _ end) => destruct x
  end).

Ltac success_or_error_tac :=
  do 3 eexists; split; [reflexivity|]; split; [reflexivity|];
  split; [first [left; reflexivity | right; reflexivity
                | match goal with |- context [if ?b then _ else _] =>
                    destruct b; [left | right]; reflexivity end] | reflexivity].

Ltac always_tagged_tac :=
  intro w; apply ok_and;
  [ apply never_raises_catch_all; intros e w'; eexists; reflexivity
  | returns_only_beta_tac; success_or_error_tac ].

(** The Messenger, profile and subscription calls never raise: whatever the network does, they return a dict whose [status] is [success] or [error] and which has a [timestamp]. *)
Theorem messenger_calls_always_tagged app_id app_secret rid text tok atype aurl ttype elements
    action uid fields igid page_id sfields :
  always_tagged (send_message rid text tok) /\
  always_tagged (send_message_with_attachment rid atype aurl tok) /\
  always_tagged (send_template_message rid ttype elements tok) /\
  always_tagged (mark_message_as_seen rid tok) /\
  always_tagged (set_typing_indicator rid action tok) /\
  always_tagged (get_user_profile uid tok fields) /\
  always_tagged (get_instagram_profile_details igid tok) /\
  always_tagged (get_page_subscriptions page_id tok) /\
  always_tagged (subscribe_app_to_page app_id app_secret page_id tok sfields).
Proof.
  unfold send_message, send_message_with_attachment, send_template_message,
    mark_message_as_seen, set_typing_indicator, get_user_profile,
    get_instagram_profile_details, get_page_subscriptions, subscribe_app_to_page,
    messenger_error_record, messenger_exception_record.
  repeat split; always_tagged_tac.
Qed.

(** [send_message] makes one POST; its result is [success] exactly when the reply is a dict with a [message_id], which it then echoes. *)
Theorem send_message_success_iff rid text tok w :
  exists r,
    send_message rid text tok w = ([send_message_request rid text tok], Ok (JObj r)) /\
    (dlookup "status" r = Some (JStr "success") <->
     exists d, w_http w (send_message_request rid text tok) = Reply (Some (JObj d)) /\
               din "message_id" d = true) /\
    (forall d mid, w_http w (send_message_request rid text tok) = Reply (Some (JObj d)) ->
       dlookup "message_id" d = Some mid -> dlookup "message_id" r = Some mid).
Proof.
  unfold send_message, send_message_request, messenger_error_record, messenger_exception_record,
    catch_all, try_except, bind, lift, ret, requests_post_json, http, now_iso, response_json, raise.
  cbn -[w_http din contains existsb dlookup].
  match goal with |- context [w_http w ?rq] => destruct (w_http w rq) as [[j|]|m] end;
    cbn -[din contains existsb dlookup].
  - destruct j as [| | | |xs|d]; cbn -[din contains existsb dlookup];
    try (eexists; split; [reflexivity|]; split;
         [split; [discriminate | intros [d' [Hd _]]; discriminate] | intros ? ? Hd; discriminate]).
    + destruct (contains s "message_id");
      (eexists; split; [reflexivity|]; split;
       [split; [discriminate | intros [d' [Hd _]]; discriminate] | intros ? ? Hd; discriminate]).
    + destruct (existsb _ xs);
      (eexists; split; [reflexivity|]; split;
       [split; [discriminate | intros [d' [Hd _]]; discriminate] | intros ? ? Hd; discriminate]).
    + unfold din. destruct (dlookup "message_id" d) as [mid|] eqn:E; cbn -[dlookup].
      * eexists; split; [reflexivity|]. split.
        -- split; [intros _; exists d; rewrite E; auto | reflexivity].
        -- intros d' mid' Hd Hm. injection Hd as <-. cbn. congruence.
      * eexists; split; [reflexivity|]. split.
        -- split; [discriminate | intros [d' [Hd Hi]]; injection Hd as <-; rewrite E in Hi; discriminate].
        -- intros d' mid' Hd Hm. injection Hd as <-. congruence.
  - eexists; split; [reflexivity|]; split;
      [split; [discriminate | intros [d' [Hd _]]; discriminate] | intros ? ? Hd; discriminate].
  - eexists; split; [reflexivity|]; split;
      [split; [discriminate | intros [d' [Hd _]]; discriminate] | intros ? ? Hd; discriminate].
Qed.

Lemma format_quick_replies_bad replies :
  existsb (fun r => negb (quick_reply_ok r)) replies = true ->
  exists e, format_quick_replies replies = Exc e.
Proof.
  induction replies as [|x r IH]; cbn; [discriminate|].
  destruct (quick_reply_ok x) eqn:Q; cbn.
  - intros H. destruct (IH H) as [e He].
    destruct x as [| | | | |d]; try discriminate. unfold quick_reply_ok, din in Q.
    destruct (dlookup "title" d) eqn:Et; [|discriminate].
    destruct (dlookup "payload" d) eqn:Ep; [|discriminate].
    cbn. rewrite Et, Ep. cbn. rewrite He. exists e. reflexivity.
  - intros _. destruct x as [| | | | |d]; cbn; eauto.
    unfold quick_reply_ok, din in Q.
    destruct (dlookup "title" d); cbn; eauto.
    destruct (dlookup "payload" d); cbn; eauto. discriminate.
Qed.

(** A quick reply without [title] or [payload] makes [send_quick_reply_message] raise before any request. *)
Theorem send_quick_reply_message_malformed_raises rid text replies tok w :
  existsb (fun r => negb (quick_reply_ok r)) replies = true ->
  exists e, send_quick_reply_message rid text (JArr replies) tok w = ([], Exc e).
Proof.
  intros H. destruct (format_quick_replies_bad replies H) as [e He].
  exists e. unfold send_quick_reply_message, bind, lift. cbn -[format_quick_replies].
  rewrite He. reflexivity.
Qed.

Lemma send_quick_reply_message_malformed_raises_witness :
  existsb (fun r => negb (quick_reply_ok r))
    [JObj [("title", JStr "Yes"); ("payload", JStr "Y")]; JObj [("title", JStr "No")]] = true /\
  exists e, send_quick_reply_message (JStr "u1") (JStr "Sure?")
              (JArr [JObj [("title", JStr "Yes"); ("payload", JStr "Y")]; JObj [("title", JStr "No")]])
              (JStr "tok") (sample_world (Reply (Some (JObj [("message_id", JStr "m1")]))))
            = ([], Exc e).
Proof.
  split; [reflexivity|]. apply send_quick_reply_message_malformed_raises. reflexivity.
Defined.

Lemma format_quick_replies_ok replies :
  forallb quick_reply_ok replies = true ->
  exists fs, format_quick_replies replies = Ok fs /\
    Forall2 (fun r f => exists d, r = JObj d /\
               f = JObj [("content_type", JStr "text"); ("title", dget "title" d);
                         ("payload", dget "payload" d)]) replies fs.
Proof.
  induction replies as [|x r IH]; cbn; [eauto|].
  intros H. apply andb_true_iff in H as [Q H]. destruct (IH H) as [fs [Hf HF]].
  destruct x as [| | | | |d]; try discriminate. unfold quick_reply_ok, din in Q.
  destruct (dlookup "title" d) eqn:Et; [|discriminate].
  destruct (dlookup "payload" d) eqn:Ep; [|discriminate].
  cbn. rewrite Et, Ep. cbn. rewrite Hf. eexists; split; [reflexivity|].
  constructor; [|exact HF]. exists d. unfold dget. rewrite Et, Ep. auto.
Qed.

(** With well-formed quick replies, [send_quick_reply_message] makes one POST with the replies formatted in order, and on success reports their count. *)
Theorem send_quick_reply_message_well_formed rid text replies tok w :
  forallb quick_reply_ok replies = true ->
  exists formatted r,
    send_quick_reply_message rid text (JArr replies) tok w
      = ([quick_reply_request rid text formatted tok], Ok (JObj r)) /\
    Forall2 (fun r f => exists d, r = JObj d /\
               f = JObj [("content_type", JStr "text"); ("title", dget "title" d);
                         ("payload", dget "payload" d)]) replies formatted /\
    (dlookup "status" r = Some (JStr "success") ->
     dlookup "quick_replies_count" r = Some (JNum (Z.of_nat (length replies)))).
Proof.
  intros H. destruct (format_quick_replies_ok replies H) as [fs [Hf HF]].
  exists fs.
  unfold send_quick_reply_message, quick_reply_request, messenger_error_record,
    messenger_exception_record, catch_all, try_except, bind, lift, ret, requests_post_json,
    http, now_iso, response_json, raise.
  cbn -[w_http din contains existsb dlookup format_quick_replies]. rewrite Hf.
  cbn -[w_http din contains existsb dlookup].
  match goal with |- context [w_http w ?rq] => destruct (w_http w rq) as [[j|]|m] end;
    cbn -[din contains existsb dlookup];
    try (eexists; split; [reflexivity|]; split; [exact HF|discriminate]).
  destruct j as [| | | |xs|d]; cbn -[din contains existsb dlookup];
    try (eexists; split; [reflexivity|]; split; [exact HF|discriminate]).
  - destruct (contains s "message_id");
      (eexists; split; [reflexivity|]; split; [exact HF|discriminate]).
  - destruct (existsb _ xs);
      (eexists; split; [reflexivity|]; split; [exact HF|discriminate]).
  - unfold din. destruct (dlookup "message_id" d) eqn:E; cbn -[dlookup];
      (eexists; split; [reflexivity|]; split; [exact HF|]); [reflexivity | discriminate].
Qed.

Lemma send_quick_reply_message_well_formed_witness :
  forallb quick_reply_ok [JObj [("title", JStr "Yes"); ("payload", JStr "Y")]] = true /\
  exists formatted r,
    send_quick_reply_message (JStr "u1") (JStr "Sure?")
      (JArr [JObj [("title", JStr "Yes"); ("payload", JStr "Y")]]) (JStr "tok")
      (sample_world (Reply (Some (JObj [("message_id", JStr "m1")]))))
      = ([quick_reply_request (JStr "u1") (JStr "Sure?") formatted (JStr "tok")], Ok (JObj r)) /\
    Forall2 (fun r f => exists d, r = JObj d /\
               f = JObj [("content_type", JStr "text"); ("title", dget "title" d);
                         ("payload", dget "payload" d)])
      [JObj [("title", JStr "Yes"); ("payload", JStr "Y")]] formatted /\
    (dlookup "status" r = Some (JStr "success") ->
     dlookup "quick_replies_count" r = Some (JNum (Z.of_nat 1))).
Proof.
  split; [reflexivity|]. apply send_quick_reply_message_well_formed. reflexivity.
Defined.

(* ------------------------------------------------------------------ *)
(** ** Pages and their tokens *)


Lemma pydict_lookup_set_same q v d :
  pydict_lookup (JStr q) (pydict_set (JStr q) v d) = Some v.
Proof.
  induction d as [|[k' v'] r IH]; cbn.
  - rewrite String.eqb_refl. reflexivity.
  - destruct k' as [| | |s'| |]; cbn; try exact IH.
    destruct (String.eqb q s') eqn:E; cbn; rewrite E; [reflexivity | exact IH].
Qed.

Lemma pydict_lookup_set_other q s v d :
  str_keyed d -> String.eqb q s = false ->
  pydict_lookup (JStr q) (pydict_set (JStr s) v d) = pydict_lookup (JStr q) d.
Proof.
  intros Hk Hqs. induction Hk as [|[k' v'] r [s' Hs'] Hr IH]; cbn in *.
  - rewrite Hqs. reflexivity.
  - subst k'. cbn. destruct (String.eqb s s') eqn:E; cbn.
    + apply String.eqb_eq in E. subst s'. rewrite Hqs. reflexivity.
    + destruct (String.eqb q s'); [reflexivity | exact IH].
Qed.

Lemma pydict_set_str_keyed s v d : str_keyed d -> str_keyed (pydict_set (JStr s) v d).
Proof.
  intros Hk. induction Hk as [|[k' v'] r Hkv Hr IH]; cbn.
  - constructor; [cbn; eauto | constructor].
  - match goal with |- context [if ?b then _ else _] => destruct b end; constructor; auto.
Qed.

Lemma build_page_dict_app l1 l2 acc :
  build_page_dict (l1 ++ l2) acc = (a <-? build_page_dict l1 acc ;; build_page_dict l2 a).
Proof.
  revert acc. induction l1 as [|p l1 IH]; intros acc; cbn; [reflexivity|].
  destruct (py_index p "id") as [k|e]; cbn; [|reflexivity].
  destruct (py_hashable k); cbn; [apply IH | reflexivity].
Qed.

Lemma build_page_dict_string_ids pages acc :
  Forall string_id_page pages -> str_keyed acc ->
  exists acc', build_page_dict pages acc = Ok acc' /\ str_keyed acc' /\
    forall q, Forall (fun p => forall d, p = JObj d -> dlookup "id" d <> Some (JStr q)) pages ->
      pydict_lookup (JStr q) acc' = pydict_lookup (JStr q) acc.
Proof.
  intros Hp. revert acc. induction Hp as [|p ps [d [s [-> Hs]]] Hps IH]; intros acc Hk.
  - exists acc. split; [reflexivity|]. split; [exact Hk|]. reflexivity.
  - destruct (IH (pydict_set (JStr s) (JObj d) acc) (pydict_set_str_keyed _ _ _ Hk))
      as [acc' [Hb [Hk' Hl]]].
    exists acc'. cbn. rewrite Hs. cbn. split; [exact Hb|]. split; [exact Hk'|].
    intros q Hq. inversion Hq as [|? ? Hd Hrest]; subst.
    rewrite (Hl q Hrest). apply pydict_lookup_set_other; [exact Hk|].
    apply String.eqb_neq. intros ->. exact (Hd d eq_refl Hs).
Qed.

(** [extract_page_info] on pages none of which has the requested id returns the [Page ID not found] error without a request. *)
Theorem extract_page_info_not_found app_id app_secret pages q w :
  Forall string_id_page pages ->
  Forall (fun p => forall d, p = JObj d -> dlookup "id" d <> Some (JStr q)) pages ->
  extract_page_info app_id app_secret (JArr pages) (JStr q) w
  = ([], Ok (JObj [("error", JStr "Page ID not found")])).
Proof.
  intros Hp Hq. destruct (build_page_dict_string_ids pages [] Hp (Forall_nil _))
    as [acc [Hb [_ Hl]]].
  unfold extract_page_info, bind, lift, ret. cbn -[build_page_dict pydict_lookup].
  rewrite Hb. cbn -[pydict_lookup]. rewrite (Hl q Hq). reflexivity.
Qed.

Lemma extract_page_info_not_found_witness :
  Forall string_id_page [JObj [("id", JStr "111"); ("name", JStr "Page A")]] /\
  Forall (fun p => forall d, p = JObj d -> dlookup "id" d <> Some (JStr "999"))
    [JObj [("id", JStr "111"); ("name", JStr "Page A")]] /\
  extract_page_info (JStr "app") (JStr "secret") (JArr [JObj [("id", JStr "111"); ("name", JStr "Page A")]])
    (JStr "999") (sample_world (Unreachable "down"))
  = ([], Ok (JObj [("error", JStr "Page ID not found")])).
Proof.
  assert (H1 : Forall string_id_page [JObj [("id", JStr "111"); ("name", JStr "Page A")]])
    by (repeat constructor; do 2 eexists; split; reflexivity).
  assert (H2 : Forall (fun p => forall d, p = JObj d -> dlookup "id" d <> Some (JStr "999"))
                 [JObj [("id", JStr "111"); ("name", JStr "Page A")]])
    by (repeat constructor; intros d Hd; injection Hd as <-; discriminate).
  split; [exact H1|]. split; [exact H2|].
  apply extract_page_info_not_found; [exact H1 | exact H2].
Defined.

(** [extract_page_info] uses the last page with the requested id, makes one token extension request with its token, and returns the page's fields, or raises [KeyError] when the extension has no [access_token]. *)
Theorem extract_page_info_found app_id app_secret pre pd post q w ext :
  Forall string_id_page (pre ++ JObj pd :: post) ->
  dlookup "id" pd = Some (JStr q) ->
  Forall (fun p => forall d, p = JObj d -> dlookup "id" d <> Some (JStr q)) post ->
  w_http w (extend_page_token_request app_id app_secret (page_field "access_token" pd))
    = Reply (Some (JObj ext)) ->
  extract_page_info app_id app_secret (JArr (pre ++ JObj pd :: post)) (JStr q) w
  = ([extend_page_token_request app_id app_secret (page_field "access_token" pd)],
     if din "access_token" ext then Ok (page_info_record pd) else Exc (KeyError "access_token")).
Proof.
  intros Hp Hid Hpost Hw.
  apply Forall_app in Hp as [Hpre Hrest].
  destruct (build_page_dict_string_ids pre [] Hpre (Forall_nil _)) as [a1 [B1 [K1 _]]].
  inversion Hrest as [|? ? _ Hpost']; subst.
  pose proof (pydict_set_str_keyed q (JObj pd) a1 K1) as K2.
  destruct (build_page_dict_string_ids post _ Hpost' K2) as [a3 [B3 [_ L3]]].
  assert (Hb : build_page_dict (pre ++ JObj pd :: post) [] = Ok a3).
  { rewrite build_page_dict_app, B1. cbn [rbind build_page_dict py_index]. rewrite Hid.
    exact B3. }
  assert (Hl : pydict_lookup (JStr q) a3 = Some (JObj pd)).
  { rewrite (L3 q Hpost). apply pydict_lookup_set_same. }
  unfold extract_page_info, extend_page_access_token, _store_page_token, catch_all, try_except,
    bind, lift, ret, requests_get, http, response_json, raise.
  cbn -[build_page_dict pydict_lookup w_http dlookup]. rewrite Hb.
  cbn -[pydict_lookup w_http dlookup]. rewrite Hl.
  cbn -[w_http dlookup].
  unfold extend_page_token_request, page_field in Hw |- *.
  rewrite Hw. cbn -[dlookup]. unfold din.
  destruct (dlookup "access_token" ext); reflexivity.
Qed.

Lemma extract_page_info_found_witness :
  let pre := [JObj [("id", JStr "222"); ("name", JStr "Old name")];
              JObj [("id", JStr "111"); ("name", JStr "Page A")]] in
  let pd := [("id", JStr "222"); ("name", JStr "Page B"); ("access_token", JStr "short")] in
  let post := [JObj [("id", JStr "333"); ("name", JStr "Page C")]] in
  let ext := [("access_token", JStr "long-lived"); ("token_type", JStr "bearer")] in
  let w := sample_world (Reply (Some (JObj ext))) in
  Forall string_id_page (pre ++ JObj pd :: post) /\
  dlookup "id" pd = Some (JStr "222") /\
  Forall (fun p => forall d, p = JObj d -> dlookup "id" d <> Some (JStr "222")) post /\
  w_http w (extend_page_token_request (JStr "app") (JStr "secret") (page_field "access_token" pd))
    = Reply (Some (JObj ext)) /\
  extract_page_info (JStr "app") (JStr "secret") (JArr (pre ++ JObj pd :: post)) (JStr "222") w
  = ([extend_page_token_request (JStr "app") (JStr "secret") (page_field "access_token" pd)],
     if din "access_token" ext then Ok (page_info_record pd) else Exc (KeyError "access_token")).
Proof.
  intros pre pd post ext w.
  assert (H1 : Forall string_id_page (pre ++ JObj pd :: post))
    by (repeat constructor; do 2 eexists; split; reflexivity).
  assert (H3 : Forall (fun p => forall d, p = JObj d -> dlookup "id" d <> Some (JStr "222")) post)
    by (repeat constructor; intros d Hd; injection Hd as <-; discriminate).
  split; [exact H1|]. split; [reflexivity|]. split; [exact H3|]. split; [reflexivity|].
  apply extract_page_info_found; [exact H1 | reflexivity | exact H3 | reflexivity].
Defined.


(** When the accounts reply has no [data], [get_facebook_pages] returns it under [error] after that one request. *)
Theorem get_facebook_pages_without_data tok w d :
  w_http w (accounts_request tok) = Reply (Some (JObj d)) ->
  din "data" d = false ->
  get_facebook_pages tok w = ([accounts_request tok], Ok (JObj [("error", JObj d)])).
Proof.
  intros Hw Hd. unfold get_facebook_pages, bind, lift, ret, requests_get, http, response_json.
  cbn -[w_http din]. unfold accounts_request in Hw. rewrite Hw. cbn -[din]. rewrite Hd.
  reflexivity.
Qed.

Lemma get_facebook_pages_without_data_witness :
  let d := [("error", JObj [("message", JStr "Invalid OAuth access token"); ("code", JNum 190)])] in
  w_http (sample_world (Reply (Some (JObj d)))) (accounts_request (JStr "bad"))
    = Reply (Some (JObj d)) /\
  din "data" d = false /\
  get_facebook_pages (JStr "bad") (sample_world (Reply (Some (JObj d))))
    = ([accounts_request (JStr "bad")], Ok (JObj [("error", JObj d)])).
Proof.
  intros d. split; [reflexivity|]. split; [reflexivity|].
  apply get_facebook_pages_without_data; reflexivity.
Defined.



Lemma dlookup_dset_other k k' v d :
  String.eqb k k' = false -> dlookup k (dset k' v d) = dlookup k d.
Proof.
  intros H. induction d as [|[a b] d IH]; simpl.
  - rewrite H. reflexivity.
  - destruct (String.eqb k' a) eqn:E; simpl.
    + apply String.eqb_eq in E. subst a. rewrite H. reflexivity.
    + destruct (String.eqb k a); [reflexivity | exact IH].
Qed.

(** [post_reel] makes the requests of [init_reel_upload] for Facebook and returns its dict with a [message] added, the [status] unchanged. *)
Theorem post_reel_is_init_with_message page_id tok description video_url w :
  exists tr r m,
    init_reel_upload page_id tok description video_url (JStr "facebook") w = (tr, Ok (JObj r)) /\
    post_reel page_id tok description video_url w = (tr, Ok (JObj (dset "message" (JStr m) r))) /\
    dlookup "status" (dset "message" (JStr m) r) = dlookup "status" r.
Proof.
  destruct (reel_operations_tagged (fun _ => true) page_id tok description video_url JNull JNull
              (JStr "facebook") JNull []) as [Ht _].
  destruct (reel_operations_never_raise (fun _ => true) page_id tok description video_url JNull
              JNull (JStr "facebook") JNull []) as [Hn _].
  destruct (ok_and tagged _ w Hn Ht) as [tr [j [E [d [s [ts [-> [Hs _]]]]]]]].
  do 3 eexists. split; [exact E|]. split.
  - unfold post_reel, bind. rewrite E. cbn. rewrite app_nil_r. reflexivity.
  - apply dlookup_dset_other. reflexivity.
Qed.

(* ------------------------------------------------------------------ *)
(** ** Page subscriptions *)

Lemma map_result_subscription_ok apps :
  forallb is_obj apps = true ->
  exists ys, map_result (fun app =>
                  app_id <-? py_get app "id" JNull ;;
                  app_name <-? py_get app "name" (JStr "Unknown") ;;
                  fields <-? py_get app "subscribed_fields" (JArr []) ;;
                  Ok (JObj [("app_id", app_id); ("app_name", app_name);
                            ("subscribed_fields", fields)])) apps = Ok ys.
Proof.
  induction apps as [|a apps IH]; cbn; [eauto|].
  intros H. apply andb_true_iff in H as [Ha H]. destruct (IH H) as [ys Hys].
  destruct a as [| | | | |d]; try discriminate. cbn. rewrite Hys. eexists; reflexivity.
Qed.

Lemma get_page_subscriptions_first_app_eq page_id tok w d app0 apps :
  w_http w (subscriptions_request page_id tok) = Reply (Some (JObj d)) ->
  dlookup "data" d = Some (JArr (JObj app0 :: apps)) ->
  forallb is_obj apps = true ->
  exists rest,
    get_page_subscriptions page_id tok w
    = ([subscriptions_request page_id tok],
       Ok (JObj [("status", JStr "success"); ("page_id", page_id);
                 ("subscriptions",
                  JArr (JObj [("app_id", dget "id" app0);
                              ("app_name", match dlookup "name" app0 with
                                           | Some x => x | None => JStr "Unknown" end);
                              ("subscribed_fields", match dlookup "subscribed_fields" app0 with
                                                    | Some x => x | None => JArr [] end)]
                        :: rest));
                 ("raw_response", JObj d); ("timestamp", JStr (w_now w))])).
Proof.
  intros Hw Hd Happs. destruct (map_result_subscription_ok apps Happs) as [ys Hys].
  exists ys.
  unfold get_page_subscriptions, catch_all, try_except, bind, lift, ret, requests_get, http,
    response_json, now_iso.
  cbn -[w_http dlookup map_result graph]. unfold subscriptions_request in Hw. rewrite Hw.
  cbn -[dlookup map_result]. unfold din. rewrite Hd. cbn -[dlookup map_result].
  cbn [map_result rbind py_get]. rewrite Hys. reflexivity.
Qed.



Lemma py_join_strs sep xs : py_join sep (map JStr xs) = Ok (String.concat sep xs).
Proof.
  induction xs as [|x xs IH]; [reflexivity|].
  destruct xs as [|y ys]; [reflexivity|].
  change (py_join sep (JStr x :: map JStr (y :: ys))
          = Ok (x ++ sep ++ String.concat sep (y :: ys))).
  cbn [py_join]. rewrite IH. destruct ys; reflexivity.
Qed.

Lemma existsb_py_eqb_strs f rm :
  existsb (py_eqb (JStr f)) (map JStr rm) = existsb (String.eqb f) rm.
Proof. induction rm as [|g rm IH]; [reflexivity|]. cbn [map existsb]. rewrite IH. reflexivity. Qed.

Lemma filter_not_in_strs cur rm :
  filter_result (fun field => b <-? py_contains field (JArr (map JStr rm)) ;; Ok (negb b))
    (map JStr cur)
  = Ok (map JStr (filter (fun f => negb (existsb (String.eqb f) rm)) cur)).
Proof.
  induction cur as [|f cur IH]; [reflexivity|].
  cbn [map filter_result]. rewrite IH. cbn [py_contains rbind filter].
  rewrite existsb_py_eqb_strs.
  destruct (negb (existsb (String.eqb f) rm)); reflexivity.
Qed.

(** When some subscribed fields of the first app remain, [unsubscribe_app_from_page_fields] reads the subscriptions, posts the remaining fields joined by commas, and reports them. *)
Theorem unsubscribe_posts_remaining_fields requests_delete page_id tok rm w d app0 apps cur rd :
  w_http w (subscriptions_request page_id tok) = Reply (Some (JObj d)) ->
  dlookup "data" d = Some (JArr (JObj app0 :: apps)) ->
  forallb is_obj apps = true ->
  dlookup "subscribed_fields" app0 = Some (JArr (map JStr cur)) ->
  remaining_fields cur rm <> [] ->
  w_http w (subscription_update_request page_id tok (remaining_fields cur rm))
    = Reply (Some (JObj rd)) ->
  unsubscribe_app_from_page_fields requests_delete page_id tok (JArr (map JStr rm)) w
  = ([subscriptions_request page_id tok;
      subscription_update_request page_id tok (remaining_fields cur rm)],
     Ok (JObj [("status", JStr (if truthy (dget "success" rd) then "success" else "error"));
               ("page_id", page_id); ("removed_fields", JArr (map JStr rm));
               ("remaining_fields", JArr (map JStr (remaining_fields cur rm)));
               ("response", JObj rd); ("timestamp", JStr (w_now w))])).
Proof.
  intros Hw Hd Happs Hf Hne Hpost.
  destruct (get_page_subscriptions_first_app_eq page_id tok w d app0 apps Hw Hd Happs)
    as [rest Hs].
  unfold unsubscribe_app_from_page_fields, catch_all, try_except, bind, lift, ret.
  rewrite Hs. cbn -[w_http dlookup filter_result py_join graph remaining_fields rbind py_contains].
  rewrite Hf. cbn -[w_http filter_result py_join graph remaining_fields rbind py_contains].
  rewrite filter_not_in_strs. fold (remaining_fields cur rm).
  destruct (remaining_fields cur rm) as [|f fs] eqn:Er; [congruence|].
  cbn -[w_http dlookup py_join graph].
  change (JStr f :: map JStr fs) with (map JStr (f :: fs)). rewrite py_join_strs.
  unfold requests_post, http.
  cbn -[w_http dlookup graph String.concat]. unfold subscription_update_request in Hpost.
  rewrite Hpost. cbn -[dlookup]. unfold dget. reflexivity.
Qed.

(** When no subscribed field of the first app remains, [unsubscribe_app_from_page_fields] reads the subscriptions and then makes only the DELETE of the subscription. *)
Theorem unsubscribe_deletes_when_no_field_left requests_delete page_id tok rm w d app0 apps cur :
  w_http w (subscriptions_request page_id tok) = Reply (Some (JObj d)) ->
  dlookup "data" d = Some (JArr (JObj app0 :: apps)) ->
  forallb is_obj apps = true ->
  dlookup "subscribed_fields" app0 = Some (JArr (map JStr cur)) ->
  remaining_fields cur rm = [] ->
  fst (unsubscribe_app_from_page_fields requests_delete page_id tok (JArr (map JStr rm)) w)
  = subscriptions_request page_id tok
    :: fst (requests_delete (graph "v18.0" (py_str page_id ++ "/subscribed_apps"))
              [("access_token", tok)] w).
Proof.
  intros Hw Hd Happs Hf He.
  destruct (get_page_subscriptions_first_app_eq page_id tok w d app0 apps Hw Hd Happs)
    as [rest Hs].
  unfold unsubscribe_app_from_page_fields, catch_all, try_except, bind, lift, ret.
  rewrite Hs. cbn -[w_http dlookup filter_result py_join graph remaining_fields rbind py_contains].
  rewrite Hf. cbn -[w_http filter_result py_join graph remaining_fields rbind py_contains].
  rewrite filter_not_in_strs. fold (remaining_fields cur rm). rewrite He.
  cbn -[w_http dlookup graph].
  destruct (requests_delete _ _ w) as [tr r]. cbn.
  destruct r as [b|e]; cbn; [|rewrite ?app_nil_r; reflexivity].
  destruct b as [j|]; cbn; [|rewrite ?app_nil_r; reflexivity].
  destruct j; cbn; rewrite ?app_nil_r; reflexivity.
Qed.


Lemma unsubscribe_posts_remaining_fields_witness :
  remaining_fields ["feed"; "messages"] ["messages"] = ["feed"] /\
  unsubscribe_app_from_page_fields (fun _ _ => ret None) (JStr "111") (JStr "tok")
    (JArr (map JStr ["messages"])) subs_world
  = ([subscriptions_request (JStr "111") (JStr "tok");
      subscription_update_request (JStr "111") (JStr "tok")
        (remaining_fields ["feed"; "messages"] ["messages"])],
     Ok (JObj [("status", JStr (if truthy (dget "success" [("success", JBool true)])
                                then "success" else "error"));
               ("page_id", JStr "111"); ("removed_fields", JArr (map JStr ["messages"]));
               ("remaining_fields",
                JArr (map JStr (remaining_fields ["feed"; "messages"] ["messages"])));
               ("response", JObj [("success", JBool true)]);
               ("timestamp", JStr (w_now subs_world))])).
Proof.
  split; [reflexivity|].
  apply (unsubscribe_posts_remaining_fields (fun _ _ => ret None) (JStr "111") (JStr "tok")
           ["messages"] subs_world subs_reply subs_app0 [] ["feed"; "messages"]);
    try reflexivity; discriminate.
Defined.

Lemma unsubscribe_deletes_when_no_field_left_witness :
  remaining_fields ["feed"; "messages"] ["messages"; "feed"] = [] /\
  fst (unsubscribe_app_from_page_fields (fun _ _ => ret None) (JStr "111") (JStr "tok")
         (JArr (map JStr ["messages"; "feed"])) subs_world)
  = subscriptions_request (JStr "111") (JStr "tok")
    :: fst ((fun _ _ => ret None : M (option json))
              (graph "v18.0" (py_str (JStr "111") ++ "/subscribed_apps"))
              [("access_token", JStr "tok")] subs_world).
Proof.
  split; [reflexivity|].
  apply (unsubscribe_deletes_when_no_field_left (fun _ _ => ret None) (JStr "111") (JStr "tok")
           ["messages"; "feed"] subs_world subs_reply subs_app0 [] ["feed"; "messages"]);
    reflexivity.
Defined.

(* ------------------------------------------------------------------ *)
(** ** The Step Functions dispatcher *)

(** A Step Functions event whose [action] is not one the dispatcher knows gives, without any request, the error response [Invalid action: ...]. *)
Theorem step_function_unknown_action_error bno unm app_id app_secret post_ig live api event a w :
  din "httpMethod" event = false ->
  dlookup "action" event = Some (JStr a) ->
  existsb (String.eqb a) step_actions = false ->
  lambda_handler bno unm (step_other_action app_id app_secret post_ig live) api event w
  = ([], Ok (CreateErrorResponse ("Invalid action: " ++ a))).
Proof.
  intros Hm Ha Hex.
  unfold lambda_handler, catch_all, try_except. rewrite Hm.
  unfold bind, handle_step_function_request, step_other_action, ev_get. rewrite Ha.
  cbn [py_eqb].
  repeat match goal with
         | |- context [String.eqb a ?s] =>
             let E := fresh "E" in
             destruct (String.eqb a s) eqn:E;
             [apply String.eqb_eq in E; subst a; cbn in Hex; discriminate Hex|]
         end.
  reflexivity.
Qed.

Lemma step_function_unknown_action_error_witness :
  let event := [("action", JStr "delete_page"); ("page_id", JStr "111")] in
  din "httpMethod" event = false /\
  dlookup "action" event = Some (JStr "delete_page") /\
  existsb (String.eqb "delete_page") step_actions = false /\
  lambda_handler (fun _ => true) (fun _ _ => ret JNull)
    (step_other_action JNull JNull (fun _ _ _ _ _ => ret JNull) (fun _ => ret JNull))
    (fun _ => ret (Returned JNull)) event (sample_world (Reply None))
  = ([], Ok (CreateErrorResponse ("Invalid action: " ++ "delete_page"))).
Proof.
  intros event. split; [reflexivity|]. split; [reflexivity|]. split; [reflexivity|].
  apply step_function_unknown_action_error; reflexivity.
Defined.
